(** * nsdotjs: the HTML request core of [NSScript]

    A shallow embedding of [NSScript.makeNsHtmlRequest] and
    [NSScript.getNsHtmlPage] (nsdotjs.ts) together with the properties of
    the request orchestration core: the simultaneity gate, the injected
    session tokens, the shape of the outgoing request and the way a
    response is turned into a result or an error. *)

From Stdlib Require Import ZArith String Ascii.
From stdpp Require Import base option list strings pretty gmap.

Local Open Scope string_scope.
Local Open Scope list_scope.
Local Open Scope Z_scope.

(** ** JavaScript values that the core manipulates *)

(** The constructor of a thrown value.  The core itself only ever writes
    [new Error(...)]; [fetch] rejects with a [TypeError] on a network
    failure, and body readers or a user input handler may reject with
    anything else. *)
Inductive ErrorClass : Type :=
| ErrorCls
| TypeErrorCls
| OtherCls (name : string).

Record JsError : Type := mkJsError
  { err_class : ErrorClass;
    err_message : string }.

(** [new Error(msg)] *)
Definition new_Error (msg : string) : JsError :=
  {| err_class := ErrorCls; err_message := msg |}.

(** The state a promise settles in. *)
Inductive Settled (A : Type) : Type :=
| Fulfilled (a : A)
| Rejected (e : JsError).
Arguments Fulfilled {A} a.
Arguments Rejected {A} e.

(** A payload value, [string | number | boolean]; numbers are the integers
    a form field carries, which [String] prints in decimal as [pretty]
    does; the handlers of region.ts and worldAssembly.ts pass strings
    only. *)
Inductive PayloadValue : Type :=
| PStr (s : string)
| PNum (z : Z)
| PBool (b : bool).

(** [String(value)] *)
Definition String_of (v : PayloadValue) : string :=
  match v with
  | PStr s => s
  | PNum z => pretty z
  | PBool true => "true"
  | PBool false => "false"
  end.

(** A payload object, given by [Object.entries(payload)]: its own
    enumerable properties in enumeration order. *)
Abbreviation Payload := (list (string * PayloadValue)).

(** A [URLSearchParams] object: the appended pairs, in order. *)
Abbreviation URLSearchParams := (list (string * string)).

Definition append (key value : string) (p : URLSearchParams) : URLSearchParams :=
  p ++ [(key, value)].

(** ** String primitives *)

(** [s.startsWith(p)] *)
Fixpoint startsWith (s p : string) {struct p} : bool :=
  match p, s with
  | EmptyString, _ => true
  | String c p', String d s' => if Ascii.eqb c d then startsWith s' p' else false
  | String _ _, EmptyString => false
  end.

(** [s.includes(t)] *)
Fixpoint includes (s t : string) : bool :=
  startsWith s t ||
  match s with
  | EmptyString => false
  | String _ s' => includes s' t
  end.

(** [s.endsWith(t)] *)
Fixpoint endsWith (s t : string) : bool :=
  (if String.eqb s t then true else false) ||
  match s with
  | EmptyString => false
  | String _ s' => endsWith s' t
  end.

(** JavaScript truthiness of [string | null]: [null] and the empty string
    are falsy. *)
Definition truthy (v : option string) : bool :=
  match v with
  | Some (String _ _) => true
  | _ => false
  end.

(** ** The browser and the script object *)

Inductive RedirectMode : Type := follow | manual.

(** The URL that [new URL(pagePath, safeBaseUrl)] denotes, kept as its
    two arguments, with the [search] that is assigned to it afterwards. *)
Record URL : Type := mkURL
  { url_base : string;
    url_ref : string;
    url_search : URLSearchParams }.

(** The arguments of one [fetch] call. *)
Record Request : Type := mkRequest
  { req_url : URL;
    req_credentials : string;
    req_method : string;
    req_body : URLSearchParams;
    req_redirect : RedirectMode }.

(** The part of a [Response] that is there when [fetch] resolves; the
    body arrives later, through [blob()] or [text()]. *)
Record Response : Type := mkResponse
  { status : Z;
    statusText : string;
    url : string }.

(** [response.ok] *)
Definition ok (r : Response) : bool :=
  (200 <=? status r) && (status r <=? 299).

(** The body reader a detached continuation was chained on. *)
Inductive BodyReader : Type := ReadBlob | ReadText.

(** A continuation registered with [then] and not awaited.  Both
    occurrences in the source have the same body, a call of
    [simultaneity.handleUnlock(this)]. *)
Inductive Detached : Type :=
| ThenUnlock (reader : BodyReader) (response : Response).

(** What a parsed document offers to [storeAuth]. *)
Record Document : Type := mkDocument
  { doc_chk : option string;
    doc_localid : option string }.

(** The calls the core makes on its collaborators, in the order in which
    they happen. *)
Inductive Event : Type :=
| EvCheck (free : bool)
| EvUserInputCalled
| EvUserInputSettled (fulfilled : bool)
| EvLock
| EvUnlock
| EvStatusInfo (msg : string)
| EvFetch (req : Request)
| EvBodyRead (reader : BodyReader)
| EvStoreAuth (doc : Document).

(** The fields of the [NSScript] instance. *)
Record NSScript : Type := mkNSScript
  { scriptName : string;
    scriptVersion : string;
    scriptAuthor : string;
    currentUser : string;
    isHtmlRequestInProgress : bool }.

(** Everything a synchronous stretch of the code can read or write. *)
Record World : Type := mkWorld
  { this : NSScript;
    localStorage : gmap string string;
    location_host : string;
    Date_now : Z;
    detached : list Detached;
    trace : list Event }.

Definition set_in_progress (b : bool) (w : World) : World :=
  {| this := {| scriptName := scriptName (this w);
                scriptVersion := scriptVersion (this w);
                scriptAuthor := scriptAuthor (this w);
                currentUser := currentUser (this w);
                isHtmlRequestInProgress := b |};
     localStorage := localStorage w;
     location_host := location_host w;
     Date_now := Date_now w;
     detached := detached w;
     trace := trace w |}.

Definition emit (e : Event) (w : World) : World :=
  {| this := this w;
     localStorage := localStorage w;
     location_host := location_host w;
     Date_now := Date_now w;
     detached := detached w;
     trace := trace w ++ [e] |}.

Definition register (d : Detached) (w : World) : World :=
  {| this := this w;
     localStorage := localStorage w;
     location_host := location_host w;
     Date_now := Date_now w;
     detached := detached w ++ [d];
     trace := trace w |}.

Definition clear_detached (w : World) : World :=
  {| this := this w;
     localStorage := localStorage w;
     location_host := location_host w;
     Date_now := Date_now w;
     detached := [];
     trace := trace w |}.

(** [localStorage.getItem(key)] *)
Definition getItem (key : string) (w : World) : option string :=
  localStorage w !! key.

(** [localStorage.setItem(key, value)] *)
Definition setItem (key value : string) (w : World) : World :=
  {| this := this w;
     localStorage := <[key := value]> (localStorage w);
     location_host := location_host w;
     Date_now := Date_now w;
     detached := detached w;
     trace := trace w |}.

(** ** Asynchronous functions

    An [async] function runs synchronously up to its first [await]; from
    there on it is a suspended computation that waits for one promise to
    settle and then runs its next synchronous stretch.  The three
    promises the core awaits are the user input handler, [fetch] and
    [response.text()]. *)
#[local] Set Warnings "-register-all".
Inductive Task (R : Type) : Type :=
| Settle (o : Settled R)
| AwaitInput (k : Settled () -> World -> World * Task R)
| AwaitFetch (req : Request) (k : Settled Response -> World -> World * Task R)
| AwaitText (r : Response) (k : Settled string -> World -> World * Task R).
Arguments Settle {R} o.
Arguments AwaitInput {R} k.
Arguments AwaitFetch {R} req k.
Arguments AwaitText {R} r k.
#[local] Set Warnings "register-all".

(** [await inner] inside another [async] function, followed by the rest
    of that function.  The outer function resumes in the stretch in
    which the inner one settles. *)
Fixpoint await {A B : Type} (inner : Task A)
    (rest : Settled A -> World -> World * Task B) (w : World) : World * Task B :=
  match inner with
  | Settle o => rest o w
  | AwaitInput k =>
      (w, AwaitInput (fun a w' => let (w'', t) := k a w' in await t rest w''))
  | AwaitFetch req k =>
      (w, AwaitFetch req (fun a w' => let (w'', t) := k a w' in await t rest w''))
  | AwaitText r k =>
      (w, AwaitText r (fun a w' => let (w'', t) := k a w' in await t rest w''))
  end.

(** What the outside world answers to one call: how each awaited promise
    settles, or [None] when it never does. *)
Record Env : Type := mkEnv
  { user_input : option (Settled ());
    fetch_result : option (Settled Response);
    text_result : option (Settled string) }.

(** Runs a task against the answers of [env].  The result is the world
    at the moment the task's promise settles, with the way it settled,
    or the world in which the task is left suspended for good. *)
Fixpoint run {R : Type} (env : Env) (t : Task R) (w : World)
    : World * option (Settled R) :=
  match t with
  | Settle o => (w, Some o)
  | AwaitInput k =>
      match user_input env with
      | Some a => let (w', t') := k a w in run env t' w'
      | None => (w, None)
      end
  | AwaitFetch _ k =>
      match fetch_result env with
      | Some a => let (w', t') := k a w in run env t' w'
      | None => (w, None)
      end
  | AwaitText _ k =>
      match text_result env with
      | Some a => let (w', t') := k a w in run env t' w'
      | None => (w, None)
      end
  end.

(** A call of an [async] function, run to the end. *)
Definition call {R : Type} (env : Env) (f : World -> World * Task R) (w : World)
    : World * option (Settled R) :=
  let (w', t) := f w in run env t w'.

(** The way a task has settled, if it has. *)
Definition settled_now {R : Type} (t : Task R) : option (Settled R) :=
  match t with
  | Settle o => Some o
  | _ => None
  end.

(** The user input promise a task waits for settles and the task runs
    its next synchronous stretch; a task that waits for something else
    is left as it is. *)
Definition deliver_input {R : Type} (t : Task R) (a : Settled ()) (w : World)
    : World * Task R :=
  match t with
  | AwaitInput k => k a w
  | _ => (w, t)
  end.

(** The request a task has handed to [fetch] and waits for. *)
Definition fetching {R : Type} (t : Task R) : option Request :=
  match t with
  | AwaitFetch req _ => Some req
  | _ => None
  end.

(** ** Collaborators of the core *)

(** Modelled from the spec: handlers/simultaneity.ts is not among the
    sources.  The gate is the field [isHtmlRequestInProgress].  The
    source splits the acquisition of the gate into two calls:
    [handleCheck], whose answer decides whether the call is rejected,
    and [handleLock] below.  [handleCheck] answers whether no operation
    is in flight. *)
Definition handleCheck (w : World) : bool * World :=
  let free := negb (isHtmlRequestInProgress (this w)) in
  (free, emit (EvCheck free) w).

(** Modelled from the spec: handlers/simultaneity.ts is not among the
    sources.  [handleLock] is the transition to "in flight"; the call
    site describes it as setting the request in progress state. *)
Definition handleLock (w : World) : World :=
  emit EvLock (set_in_progress true w).

(** Modelled from the spec: handlers/simultaneity.ts is not among the
    sources.  [handleUnlock] is the release, the transition back to "not
    in flight", a no-op on a gate that is already released. *)
Definition handleUnlock (w : World) : World :=
  emit EvUnlock (set_in_progress false w).

(** Modelled from the spec: networking/html/auth.ts is not among the
    sources.  [storeAuth] extracts the token pair from a parsed document
    and overwrites the store; a field the document does not have is
    skipped silently and the store keeps its previous value. *)
Definition storeAuth (doc : Document) (w : World) : World :=
  let w := emit (EvStoreAuth doc) w in
  let w := match doc_chk doc with
           | Some v => setItem "lastKnownChk" v w
           | None => w
           end in
  match doc_localid doc with
  | Some v => setItem "lastKnownLocalid" v w
  | None => w
  end.

(** [this.statusBubble.info(msg)], a write-only sink. *)
Definition statusBubble_info (msg : string) (w : World) : World :=
  emit (EvStatusInfo msg) w.

(** [await this.userInputHandler()] followed by [rest]. *)
Definition userInputHandler {R : Type}
    (rest : Settled () -> World -> World * Task R) (w : World) : World * Task R :=
  (emit EvUserInputCalled w,
   AwaitInput (fun a w' =>
     rest a (emit (EvUserInputSettled (if a is Fulfilled _ then true else false)) w'))).

(** [await fetch(url, init)] followed by [rest]. *)
Definition fetch {R : Type} (req : Request)
    (rest : Settled Response -> World -> World * Task R) (w : World) : World * Task R :=
  (emit (EvFetch req) w, AwaitFetch req rest).

(** [await response.text()] followed by [rest]. *)
Definition response_text {R : Type} (response : Response)
    (rest : Settled string -> World -> World * Task R) (w : World) : World * Task R :=
  (emit (EvBodyRead ReadText) w, AwaitText response rest).

(** [response.blob().then(cb)] and [response.text().then(cb)], not
    awaited: the body starts being read and [cb] is left behind. *)
Definition then_unlock (reader : BodyReader) (response : Response) (w : World) : World :=
  register (ThenUnlock reader response) (emit (EvBodyRead reader) w).

(** One detached continuation runs, once its body has been read. *)
Definition run_detached (w : World) (d : Detached) : World :=
  match d with
  | ThenUnlock _ _ => handleUnlock w
  end.

(** Every body that was being read has been read and all the
    continuations left behind have run. *)
Definition bodies_consumed (w : World) : World :=
  foldl run_detached (clear_detached w) (detached w).

(** ** [NSScript] *)

(** [getRequestDomain] *)
Definition getRequestDomain (w : World) : string :=
  if String.eqb (location_host w) "fast.nationstates.net"
  then "fast.nationstates.net"
  else "www.nationstates.net".

Definition simultaneityError : JsError :=
  new_Error "Simultaneity check failed. Please try again.".

(** The body of the [try] block of [makeNsHtmlRequest] up to the call of
    [fetch]: the request that is sent. *)
Definition buildRequest (pagePath : string) (payload : option Payload)
    (followRedirects : bool) (w : World) : Request :=
  let baseUrl := "https://" +:+ getRequestDomain w +:+ "/" in
  let scriptParamValue :=
    scriptName (this w) +:+ " v" +:+ scriptVersion (this w) +:+ " by " +:+
    scriptAuthor (this w) +:+ " in use by " +:+ currentUser (this w) in
  let requestParams : URLSearchParams := [] in
  let payloadParams : URLSearchParams := [] in
  let payloadParams :=
    match payload with
    | Some entries =>
        foldl (fun acc kv => append (fst kv) (String_of (snd kv)) acc)
              payloadParams entries
    | None => payloadParams
    end in
  let requestParams := append "userclick" (pretty (Date_now w)) requestParams in
  let requestParams := append "script" scriptParamValue requestParams in
  let requestParams :=
    if negb (endsWith pagePath ".cgi")
    then append "template-overall" "none" requestParams
    else requestParams in
  let lastKnownChk := getItem "lastKnownChk" w in
  let payloadParams :=
    if truthy lastKnownChk
    then append "chk" (default "" lastKnownChk) payloadParams
    else payloadParams in
  let lastKnownLocalid := getItem "lastKnownLocalid" w in
  let payloadParams :=
    if truthy lastKnownLocalid
    then append "localid" (default "" lastKnownLocalid) payloadParams
    else payloadParams in
  let safeBaseUrl := if endsWith baseUrl "/" then baseUrl else baseUrl +:+ "/" in
  let finalUrl := {| url_base := safeBaseUrl; url_ref := pagePath;
                     url_search := requestParams |} in
  {| req_url := finalUrl;
     req_credentials := "include";
     req_method := "POST";
     req_body := payloadParams;
     req_redirect := if followRedirects then follow else manual |}.

(** [makeNsHtmlRequest(pagePath, payload, followRedirects, shouldUnlockSimul)]

    The statements of the [try] block that come before the call of
    [fetch] are taken to complete.  The one of them that can throw is
    [new URL(pagePath, safeBaseUrl)]: it parses every relative
    reference, and so every page path that the handlers pass, which all
    begin with [page=] or [cgi-bin/]; on a page path that is no such
    reference, such as [//], it throws, and the [catch] block unlocks
    and rethrows before anything is sent.  The model has no exit for
    such a path: what is proved below about the requests of a call
    with an arbitrary page path speaks of every request that is sent,
    and a request is shown to be sent only for the calls of the
    handlers. *)
Definition makeNsHtmlRequest (pagePath : string) (payload : option Payload)
    (followRedirects shouldUnlockSimul : bool) (w : World) : World * Task Response :=
  let (free, w) := handleCheck w in
  if negb free then (w, Settle (Rejected simultaneityError))
  else
    userInputHandler (fun input w =>
      match input with
      | Rejected err => (w, Settle (Rejected err))
      | Fulfilled _ =>
          let w := handleLock w in
          (* try *)
          let w := statusBubble_info ("Loading: " +:+ pagePath +:+ "...") w in
          fetch (buildRequest pagePath payload followRedirects w) (fun settled w =>
            match settled with
            | Fulfilled response =>
                let w := if shouldUnlockSimul then then_unlock ReadBlob response w else w in
                (w, Settle (Fulfilled response))
            | Rejected err =>
                (* catch *)
                let w := handleUnlock w in
                (w, Settle (Rejected err))
            end) w
      end) w.

Definition fetchFailedError (response : Response) : JsError :=
  new_Error ("Failed to fetch page: " +:+ statusText response).

Definition securityCheckError : JsError :=
  new_Error "Failed security check. Please run reauth and try again.".

Definition captchaError : JsError :=
  new_Error "You need to solve the border patrol captcha before proceeding.".

Section Page.

(** [parseHtml] (helpers.ts) is not among the sources; the pipeline
    only hands its result on to [storeAuth]. *)
Variable parseHtml : string -> Document.

(** [getNsHtmlPage(pagePath, payload)] *)
Definition getNsHtmlPage (pagePath : string) (payload : option Payload)
    (w : World) : World * Task string :=
  let (w, request) := makeNsHtmlRequest pagePath payload true false w in
  await request (fun settled w =>
    match settled with
    | Rejected err => (w, Settle (Rejected err))
    | Fulfilled response =>
        if negb (ok response) then
          let w := then_unlock ReadText response w in
          (w, Settle (Rejected (fetchFailedError response)))
        else
          response_text response (fun settled w =>
            match settled with
            | Rejected err => (w, Settle (Rejected err))
            | Fulfilled text =>
                let w := handleUnlock w in
                if includes text "Failed security check" then
                  (w, Settle (Rejected securityCheckError))
                else if includes text "Border Patrol" then
                  (w, Settle (Rejected captchaError))
                else
                  let doc := parseHtml text in
                  let w := storeAuth doc w in
                  (w, Settle (Fulfilled text))
            end) w
    end) w.

End Page.

(** ** Reading a run *)

(** The events a call added to the trace of the world it started in. *)
Definition added_events (w w' : World) : list Event :=
  drop (length (trace w)) (trace w').

(** The requests handed to [fetch] among some events. *)
Definition requests_of (evs : list Event) : list Request :=
  omap (fun e => match e with EvFetch req => Some req | _ => None end) evs.

(** The events that concern the gate and the network. *)
Definition gate_events (evs : list Event) : list Event :=
  List.filter (fun e => match e with
                        | EvCheck _ | EvLock | EvUnlock | EvFetch _ => true
                        | _ => false
                        end) evs.

(** The form fields a caller supplies, as [Object.entries] lists them. *)
Definition callerFields (payload : option Payload) : URLSearchParams :=
  (fun kv => (fst kv, String_of (snd kv))) <$> default [] payload.

(** The form fields that come from the token store. *)
Definition tokenFields (w : World) : URLSearchParams :=
  (if truthy (getItem "lastKnownChk" w)
   then [("chk", default "" (getItem "lastKnownChk" w))] else []) ++
  (if truthy (getItem "lastKnownLocalid" w)
   then [("localid", default "" (getItem "lastKnownLocalid" w))] else []).

(** ** Sample data *)

Definition sampleScript : NSScript :=
  {| scriptName := "demo"; scriptVersion := "1.0"; scriptAuthor := "Ann";
     currentUser := "Bob"; isHtmlRequestInProgress := false |}.

(** An idle script with one token in the store. *)
Definition idleWorld : World :=
  {| this := sampleScript;
     localStorage := {[ "lastKnownChk" := "c1" ]};
     location_host := "www.nationstates.net";
     Date_now := 1700;
     detached := [];
     trace := [] |}.

(** The same script while another operation holds the gate. *)
Definition busyWorld : World := set_in_progress true idleWorld.

(** A store whose [lastKnownChk] entry is the empty string. *)
Definition emptyChkWorld : World := setItem "lastKnownChk" "" idleWorld.

Definition response200 : Response :=
  {| status := 200; statusText := "OK";
     url := "https://www.nationstates.net/page=change_region" |}.

Definition response500 : Response :=
  {| status := 500; statusText := "";
     url := "https://www.nationstates.net/page=change_region" |}.

Definition response503 : Response :=
  {| status := 503; statusText := "";
     url := "https://www.nationstates.net/page=change_region" |}.

Definition answers (r : Response) (body : string) : Env :=
  {| user_input := Some (Fulfilled ());
     fetch_result := Some (Fulfilled r);
     text_result := Some (Fulfilled body) |}.

Definition networkDown : Env :=
  {| user_input := Some (Fulfilled ());
     fetch_result := Some (Rejected {| err_class := TypeErrorCls;
                                       err_message := "Failed to fetch" |});
     text_result := None |}.

(** The user has not answered the user input handler yet. *)
Definition userNotReady : Env :=
  {| user_input := None; fetch_result := None; text_result := None |}.

(** The response arrives but reading its body fails. *)
Definition bodyReadFails : Env :=
  {| user_input := Some (Fulfilled ());
     fetch_result := Some (Fulfilled response200);
     text_result := Some (Rejected {| err_class := TypeErrorCls;
                                      err_message := "network error" |}) |}.

(** A stand-in for [parseHtml] on the pages of the examples. *)
Definition sampleParseHtml (page : string) : Document :=
  {| doc_chk := if includes page "name=chk value=c2" then Some "c2" else None;
     doc_localid := if includes page "name=localid value=l2" then Some "l2" else None |}.

Definition movePayload : option Payload :=
  Some [("region_name", PStr "rwby"); ("move_region", PStr "1")].

(** The request of the sample call: a move to a region on an idle script
    whose store holds [chk = c1]. *)
Definition moveRequest : Request :=
  buildRequest "page=change_region" movePayload true idleWorld.

(** The request of an endorsement, a [.cgi] endpoint. *)
Definition endorseRequest : Request :=
  buildRequest "cgi-bin/endorse.cgi"
    (Some [("nation", PStr "testlandia"); ("action", PStr "endorse")]) true idleWorld.

(** A page that carries fresh tokens. *)
Definition freshPage : string :=
  "<input name=chk value=c2><input name=localid value=l2><p>Success!</p>".

(** A page that carries both failure markers. *)
Definition bothMarkersPage : string :=
  "<p>Failed security check.</p><footer>Border Patrol</footer>".

Definition captchaPage : string := "<h1>Border Patrol</h1>".

(** The sample call of [makeNsHtmlRequest]: a move to a region. *)
Definition moveCall (env : Env) (w : World) : World * option (Settled Response) :=
  call env (makeNsHtmlRequest "page=change_region" movePayload true true) w.

(** The sample call of [getNsHtmlPage]: a move to a region. *)
Definition movePage (env : Env) (w : World) : World * option (Settled string) :=
  call env (getNsHtmlPage sampleParseHtml "page=change_region" movePayload) w.

(** ** The handlers *)

(** The one message a handler shows in the status bubble before it
    returns: [statusBubble.success(msg)] or [statusBubble.warn(msg)]. *)
Inductive Bubble : Type :=
| ShownSuccess (msg : string)
| ShownWarn (msg : string).

(** What a handler leaves behind when it returns: the bubble it has
    shown and the boolean it returns. *)
Record Reported : Type := mkReported
  { bubble : Bubble;
    returned : bool }.

(** ["ga" | "sc"] *)
Inductive Council : Type := council_ga | council_sc.

Definition council_string (c : Council) : string :=
  match c with
  | council_ga => "ga"
  | council_sc => "sc"
  end.

(** ["for" | "against"] *)
Inductive Vote : Type := vote_for | vote_against.

Definition vote_string (v : Vote) : string :=
  match v with
  | vote_for => "for"
  | vote_against => "against"
  end.

(** ["add" | "remove"] *)
Inductive TagAction : Type := tag_add | tag_remove.

Definition tag_action_string (a : TagAction) : string :=
  match a with
  | tag_add => "add"
  | tag_remove => "remove"
  end.

(** [s.toLowerCase()] on the letters A to Z. *)
Definition lower_ascii (c : ascii) : ascii :=
  let n := nat_of_ascii c in
  if ((65 <=? n) && (n <=? 90))%nat then ascii_of_nat (n + 32) else c.

Fixpoint toLowerCase (s : string) : string :=
  match s with
  | EmptyString => EmptyString
  | String c s' => String (lower_ascii c) (toLowerCase s')
  end.

Section Handlers.

(** [parseHtml], [canonicalize] and [prettify] (helpers of the
    repository) are not among the sources, and [trim] is the method of
    JavaScript strings; the handlers only pass their results on. *)
Variable parseHtml : string -> Document.
Variable canonicalize : string -> string.
Variable prettify : string -> string.
Variable trim : string -> string.

(** [const text = await context.getNsHtmlPage(pagePath, payload)]
    followed by the synchronous rest of a handler. *)
Definition awaitPage {A : Type} (pagePath : string) (payload : option Payload)
    (rest : string -> A) (w : World) : World * Task A :=
  let (w, page) := getNsHtmlPage parseHtml pagePath payload w in
  await page (fun settled w =>
    match settled with
    | Rejected err => (w, Settle (Rejected err))
    | Fulfilled text => (w, Settle (Fulfilled (rest text)))
    end) w.

(** [const response = await context.makeNsHtmlRequest(pagePath, payload)]
    followed by the synchronous rest of a handler. *)
Definition awaitRequest {A : Type} (pagePath : string) (payload : option Payload)
    (rest : Response -> A) (w : World) : World * Task A :=
  let (w, request) := makeNsHtmlRequest pagePath payload true true w in
  await request (fun settled w =>
    match settled with
    | Rejected err => (w, Settle (Rejected err))
    | Fulfilled response => (w, Settle (Fulfilled (rest response)))
    end) w.

(** *** worldAssembly.ts *)

Definition handleApply (reapply : option bool) : World -> World * Task Reported :=
  let payload :=
    if default false reapply
    then [("action", PStr "join_UN"); ("resend", PStr "1")]
    else [("action", PStr "join_UN"); ("submit", PStr "1")] in
  awaitPage "page=UN_Status" (Some payload) (fun text =>
    if includes text "Your application to join the World Assembly has been received!"
    then {| bubble := ShownSuccess "Applied to World Assembly"; returned := true |}
    else {| bubble := ShownWarn "Failed to apply to World Assembly"; returned := false |}).

Definition handleJoin (nationName appId : string) : World -> World * Task Reported :=
  awaitPage "cgi-bin/"
    (Some [("nation", PStr nationName); ("appid", PStr (trim appId))]) (fun text =>
    if includes text "Welcome to the World Assembly, new member "
    then {| bubble := ShownSuccess ("Joined World Assembly as " +:+ prettify nationName);
            returned := true |}
    else {| bubble := ShownWarn "Failed to join World Assembly"; returned := false |}).

Definition handleResign : World -> World * Task Reported :=
  awaitPage "page=UN_Status"
    (Some [("action", PStr "leave_UN"); ("submit", PStr "1")]) (fun text =>
    if includes text "From context moment forward, your nation is on its own."
    then {| bubble := ShownSuccess "Resigned from World Assembly"; returned := true |}
    else {| bubble := ShownWarn "Failed to resign from World Assembly"; returned := false |}).

Definition handleEndorse (nationName : string) : World -> World * Task Reported :=
  awaitRequest "cgi-bin/endorse.cgi"
    (Some [("nation", PStr nationName); ("action", PStr "endorse")]) (fun response =>
    let location := url response in
    if includes location ("nation=" +:+ canonicalize nationName)
    then {| bubble := ShownSuccess ("Endorsed " +:+ prettify nationName); returned := true |}
    else {| bubble := ShownWarn ("Failed to endorse " +:+ prettify nationName);
            returned := false |}).

Definition handleUnendorse (nationName : string) : World -> World * Task Reported :=
  awaitRequest "cgi-bin/endorse.cgi"
    (Some [("nation", PStr nationName); ("action", PStr "unendorse")]) (fun response =>
    let location := url response in
    if includes location ("nation=" +:+ canonicalize nationName)
    then {| bubble := ShownSuccess ("Unendorsed " +:+ prettify nationName); returned := true |}
    else {| bubble := ShownWarn ("Failed to unendorse " +:+ prettify nationName);
            returned := false |}).

Definition handleVote (council : Council) (vote : Vote) : World -> World * Task Reported :=
  awaitPage ("page=" +:+ council_string council)
    (Some [("vote", PStr ("Vote " +:+ vote_string vote))]) (fun response =>
    if includes response "Your vote has been lodged."
    then {| bubble := ShownSuccess ("Voted " +:+ vote_string vote +:+ " in " +:+
                                    council_string council);
            returned := true |}
    else {| bubble := ShownWarn ("Failed to vote " +:+ vote_string vote +:+ " in " +:+
                                 council_string council);
            returned := false |}).

(** *** region.ts *)

Definition handleMove (regionName : string) (password : option string)
    : World -> World * Task Reported :=
  let payload := [("region_name", PStr regionName); ("move_region", PStr "1")] in
  let payload :=
    if truthy password
    then payload ++ [("password", PStr (default "" password))]
    else payload in
  awaitPage "page=change_region" (Some payload) (fun text =>
    if includes text "Success!"
    then {| bubble := ShownSuccess ("Moved to region: " +:+ prettify regionName);
            returned := true |}
    else {| bubble := ShownWarn ("Failed to move to region: " +:+ prettify regionName);
            returned := false |}).

Definition handleCreate (regionName wfe password : string)
    (frontier executiveDelegate : bool) : World -> World * Task Reported :=
  let payload :=
    [("region_name", PStr (canonicalize regionName));
     ("desc", PStr wfe);
     ("create_region", PStr "1");
     ("is_frontier", PStr (if frontier then "1" else "0"));
     ("delegate_control", PStr (if executiveDelegate then "1" else "0"))] in
  let payload :=
    if truthy (Some password)
    then payload ++ [("pw", PStr "1"); ("rpassword", PStr password)]
    else payload in
  awaitPage "page=create_region" (Some payload) (fun text =>
    if includes text "Success! You have founded "
    then {| bubble := ShownSuccess ("Created region: " +:+ prettify regionName);
            returned := true |}
    else {| bubble := ShownWarn ("Failed to create region: " +:+ prettify regionName);
            returned := false |}).

Definition handleChangeWFE (wfe : string) : World -> World * Task Reported :=
  awaitPage "page=region_control"
    (Some [("message", PStr (trim wfe)); ("setwfebutton", PStr "1")]) (fun text =>
    if includes text "World Factbook Entry updated!"
    then {| bubble := ShownSuccess "World Factbook Entry updated!"; returned := true |}
    else {| bubble := ShownWarn "Failed to update World Factbook Entry.";
            returned := false |}).

Definition handleRequestEmbassy (target : string) : World -> World * Task Reported :=
  awaitPage "page=region_control"
    (Some [("requestembassyregion", PStr target); ("requestembassy", PStr "1")])
    (fun text =>
    if includes text "Your proposal for the construction of embassies with"
    then {| bubble := ShownSuccess ("Requested embassy with " +:+ prettify target);
            returned := true |}
    else {| bubble := ShownWarn ("Failed to request embassy with " +:+ prettify target);
            returned := false |}).

Definition handleCloseEmbassy (target : string) : World -> World * Task Reported :=
  awaitPage "page=region_control"
    (Some [("cancelembassyregion", PStr target)]) (fun text =>
    if includes text " has been scheduled for demolition."
    then {| bubble := ShownSuccess ("Burned embassy with " +:+ prettify target);
            returned := true |}
    else {| bubble := ShownWarn ("Failed to burn embassy with " +:+ prettify target);
            returned := false |}).

Definition handleAbortEmbassy (target : string) : World -> World * Task Reported :=
  awaitPage "page=region_control"
    (Some [("abortembassyregion", PStr target)]) (fun text =>
    if includes text " aborted."
    then {| bubble := ShownSuccess ("Aborted embassy with " +:+ prettify target);
            returned := true |}
    else {| bubble := ShownWarn ("Failed to abort embassy with " +:+ prettify target);
            returned := false |}).

Definition handleCancelEmbassyClosure (target : string) : World -> World * Task Reported :=
  awaitPage "page=region_control"
    (Some [("cancelembassyclosureregion", PStr target)]) (fun text =>
    if includes text "Embassy closure order cancelled."
    then {| bubble := ShownSuccess ("Cancelled embassy closure with " +:+ prettify target);
            returned := true |}
    else {| bubble := ShownWarn ("Failed to cancel embassy closure with " +:+
                                 prettify target);
            returned := false |}).

Definition handleEject (nationName : string) : World -> World * Task Reported :=
  awaitPage "page=region_control"
    (Some [("nation_name", PStr nationName); ("eject", PStr "1")]) (fun text =>
    if includes text "has been ejected from "
    then {| bubble := ShownSuccess ("Ejected nation: " +:+ prettify nationName);
            returned := true |}
    else {| bubble := ShownWarn ("Failed to eject nation: " +:+ prettify nationName);
            returned := false |}).

Definition handleBanject (nationName : string) : World -> World * Task Reported :=
  awaitPage "page=region_control"
    (Some [("nation_name", PStr nationName); ("ban", PStr "1")]) (fun text =>
    if includes text "has been ejected and banned from "
    then {| bubble := ShownSuccess ("Banjected nation: " +:+ prettify nationName);
            returned := true |}
    else {| bubble := ShownWarn ("Failed to banject nation: " +:+ prettify nationName);
            returned := false |}).

Definition handleTag (action : TagAction) (tag : string) : World -> World * Task Reported :=
  let prettified_action :=
    match action with
    | tag_add => "Add"
    | tag_remove => "Remov"
    end in
  let payload :=
    [(tag_action_string action +:+ "_tag", PStr tag); ("updatetagsbutton", PStr "1")] in
  awaitPage "page=region_control" (Some payload) (fun text =>
    if includes text "Region Tags updated!"
    then {| bubble := ShownSuccess (prettified_action +:+ "ed tag: " +:+ prettify tag);
            returned := true |}
    else
      let prettified_action :=
        if String.eqb prettified_action "Remov" then "Remove" else prettified_action in
      {| bubble := ShownWarn ("Failed to " +:+ toLowerCase prettified_action +:+
                              " tag: " +:+ prettify tag);
         returned := false |}).

(** [if (authority.includes(letter)) payload.authority_<letter> = "on"] *)
Definition authorityField (authority letter : string) (payload : Payload) : Payload :=
  if includes authority letter
  then payload ++ [("authority_" +:+ letter, PStr "on")]
  else payload.

(** [if (regionName) { page += `/region=${regionName}`; payload.region =
    regionName }], the page and the payload taken together. *)
Definition regionScope (regionName : option string) (scoped : string * Payload)
    : string * Payload :=
  if truthy regionName
  then (fst scoped +:+ "/region=" +:+ default "" regionName,
        snd scoped ++ [("region", PStr (default "" regionName))])
  else scoped.

Definition handleEditRO (nationName officeName authority : string)
    (regionName : option string) : World -> World * Task Reported :=
  let payload :=
    [("nation", PStr nationName); ("office_name", PStr officeName);
     ("editofficer", PStr "1")] in
  let payload := authorityField authority "A" payload in
  let payload := authorityField authority "B" payload in
  let payload := authorityField authority "C" payload in
  let payload := authorityField authority "E" payload in
  let payload := authorityField authority "P" payload in
  let payload := authorityField authority "S" payload in
  let (page, payload) := regionScope regionName ("page=region_control", payload) in
  awaitPage page (Some payload) (fun text =>
    if includes text "Appointed" && includes text "with authority over"
    then {| bubble := ShownSuccess ("Appointed " +:+ prettify nationName +:+ " as RO");
            returned := true |}
    else if includes text "Renamed the authority held by"
            || ((includes text "authority from" || includes text "authority to")
                && (includes text "Removed" || includes text "Granted"))
    then {| bubble := ShownSuccess ("Edited " +:+ prettify nationName +:+ "'s office");
            returned := true |}
    else {| bubble := ShownWarn ("Failed to appoint/edit " +:+ prettify nationName +:+
                                 " as RO");
            returned := false |}).

Definition handleDismissRO (nationName : string) (regionName : option string)
    : World -> World * Task Reported :=
  let payload := [("nation", PStr nationName); ("abolishofficer", PStr "1")] in
  let (page, payload) := regionScope regionName ("page=region_control", payload) in
  awaitPage page (Some payload) (fun text =>
    if includes text "Dismissed" && includes text "as"
    then {| bubble := ShownSuccess ("Dismissed " +:+ prettify nationName +:+ " from office");
            returned := true |}
    else {| bubble := ShownWarn ("Failed to dismiss " +:+ prettify nationName +:+
                                 " from office");
            returned := false |}).

Definition handleEditDelegate (authority : string) (regionName : option string)
    : World -> World * Task Reported :=
  let payload :=
    [("office", PStr "delegate"); ("editofficer", PStr "1");
     ("authority_W", PStr "on")] in
  let payload := authorityField authority "A" payload in
  let payload := authorityField authority "B" payload in
  let payload := authorityField authority "C" payload in
  let payload := authorityField authority "E" payload in
  let payload := authorityField authority "P" payload in
  let payload := authorityField authority "X" payload in
  let (page, payload) := regionScope regionName ("page=region_control", payload) in
  awaitPage page (Some payload) (fun text =>
    if includes text "Set Delegate authority to:"
    then {| bubble := ShownSuccess "Modified delegate authority"; returned := true |}
    else {| bubble := ShownWarn "Failed to modify delegate authority"; returned := false |}).

Definition handleRenameGovernor (officeName : string) (regionName : option string)
    : World -> World * Task Reported :=
  let payload :=
    [("office", PStr "governor"); ("office_name", PStr officeName);
     ("editofficer", PStr "1")] in
  let (page, payload) := regionScope regionName ("page=region_control", payload) in
  awaitPage page (Some payload) (fun text =>
    if includes text "Renamed the Governor's office"
    then {| bubble := ShownSuccess "Renamed Governor"; returned := true |}
    else {| bubble := ShownWarn "Failed to rename Governor"; returned := false |}).

(** *** The methods of [NSScript] *)

(** [reAuthenticate()] *)
Definition reAuthenticate : World -> World * Task Bubble :=
  awaitPage "page=display_region" (Some [("region", PStr "rwby")]) (fun _ =>
    ShownSuccess "Re-authenticated").

(** A call of one of the handlers that region.ts and worldAssembly.ts
    export, with its arguments. *)
Inductive Handler : Type :=
| HandleApply (reapply : option bool)
| HandleJoin (nationName appId : string)
| HandleResign
| HandleEndorse (nationName : string)
| HandleUnendorse (nationName : string)
| HandleVote (council : Council) (vote : Vote)
| HandleMove (regionName : string) (password : option string)
| HandleCreate (regionName wfe password : string) (frontier executiveDelegate : bool)
| HandleChangeWFE (wfe : string)
| HandleRequestEmbassy (target : string)
| HandleCloseEmbassy (target : string)
| HandleAbortEmbassy (target : string)
| HandleCancelEmbassyClosure (target : string)
| HandleEject (nationName : string)
| HandleBanject (nationName : string)
| HandleTag (action : TagAction) (tag : string)
| HandleEditRO (nationName officeName authority : string) (regionName : option string)
| HandleDismissRO (nationName : string) (regionName : option string)
| HandleEditDelegate (authority : string) (regionName : option string)
| HandleRenameGovernor (officeName : string) (regionName : option string).

Definition handle (h : Handler) : World -> World * Task Reported :=
  match h with
  | HandleApply reapply => handleApply reapply
  | HandleJoin nationName appId => handleJoin nationName appId
  | HandleResign => handleResign
  | HandleEndorse nationName => handleEndorse nationName
  | HandleUnendorse nationName => handleUnendorse nationName
  | HandleVote council vote => handleVote council vote
  | HandleMove regionName password => handleMove regionName password
  | HandleCreate regionName wfe password frontier executiveDelegate =>
      handleCreate regionName wfe password frontier executiveDelegate
  | HandleChangeWFE wfe => handleChangeWFE wfe
  | HandleRequestEmbassy target => handleRequestEmbassy target
  | HandleCloseEmbassy target => handleCloseEmbassy target
  | HandleAbortEmbassy target => handleAbortEmbassy target
  | HandleCancelEmbassyClosure target => handleCancelEmbassyClosure target
  | HandleEject nationName => handleEject nationName
  | HandleBanject nationName => handleBanject nationName
  | HandleTag action tag => handleTag action tag
  | HandleEditRO nationName officeName authority regionName =>
      handleEditRO nationName officeName authority regionName
  | HandleDismissRO nationName regionName => handleDismissRO nationName regionName
  | HandleEditDelegate authority regionName => handleEditDelegate authority regionName
  | HandleRenameGovernor officeName regionName =>
      handleRenameGovernor officeName regionName
  end.

(** The methods of [NSScript] that hand over to a handler of region.ts
    or worldAssembly.ts, with their arguments.  The two other methods
    that hand over to a handler, [login] and [restoreNation], go to
    nation.ts, which is not among the sources, and are left out. *)
Inductive Method : Type :=
| moveToRegion (regionName : string) (password : option string)
| createRegion (regionName wfe : string) (password : option string)
    (frontier executiveDelegate : option bool)
| changeWFE (wfe : string)
| requestEmbassy (regionName : string)
| burnEmbassy (regionName : string)
| abortEmbassyOpening (regionName : string)
| cancelEmbassyClosure (regionName : string)
| banject (nationName : string)
| eject (nationName : string)
| addTag (tag : string)
| removeTag (tag : string)
| applyToWorldAssembly (reapply : option bool)
| joinWorldAssembly (nationName appId : string)
| resignWorldAssembly
| endorseNation (nationName : string)
| unEndorseNation (nationName : string)
| waVote (council : Council) (vote : Vote).

(** The handler call that the body of a method returns, with the
    defaults of the method's parameters filled in. *)
Definition dispatch (m : Method) : Handler :=
  match m with
  | moveToRegion regionName password => HandleMove regionName password
  | createRegion regionName wfe password frontier executiveDelegate =>
      HandleCreate regionName wfe (default "" password) (default false frontier)
        (default false executiveDelegate)
  | changeWFE wfe => HandleChangeWFE wfe
  | requestEmbassy regionName => HandleRequestEmbassy regionName
  | burnEmbassy regionName => HandleCloseEmbassy regionName
  | abortEmbassyOpening regionName => HandleAbortEmbassy regionName
  | cancelEmbassyClosure regionName => HandleCancelEmbassyClosure regionName
  | banject nationName => HandleBanject nationName
  | eject nationName => HandleEject nationName
  | addTag tag => HandleTag tag_add tag
  | removeTag tag => HandleTag tag_remove tag
  | applyToWorldAssembly reapply => HandleApply reapply
  | joinWorldAssembly nationName appId => HandleJoin nationName appId
  | resignWorldAssembly => HandleResign
  | endorseNation nationName => HandleEndorse nationName
  | unEndorseNation nationName => HandleUnendorse nationName
  | waVote council vote => HandleVote council vote
  end.

Definition invoke (m : Method) : World -> World * Task Reported :=
  handle (dispatch m).

End Handlers.

(** Stand-ins for [canonicalize], [prettify] and [trim] in the examples. *)
Definition sampleCanonicalize (s : string) : string := toLowerCase s.
Definition samplePrettify (s : string) : string := s.
Definition sampleTrim (s : string) : string := s.

(** The page path with which a handler reaches the pipeline. *)
Definition endpoint (h : Handler) : string :=
  match h with
  | HandleApply _ | HandleResign => "page=UN_Status"
  | HandleJoin _ _ => "cgi-bin/"
  | HandleEndorse _ | HandleUnendorse _ => "cgi-bin/endorse.cgi"
  | HandleVote council _ => "page=" +:+ council_string council
  | HandleMove _ _ => "page=change_region"
  | HandleCreate _ _ _ _ _ => "page=create_region"
  | HandleChangeWFE _ | HandleRequestEmbassy _ | HandleCloseEmbassy _
  | HandleAbortEmbassy _ | HandleCancelEmbassyClosure _ | HandleEject _
  | HandleBanject _ | HandleTag _ _ => "page=region_control"
  | HandleEditRO _ _ _ regionName | HandleDismissRO _ regionName
  | HandleEditDelegate _ regionName | HandleRenameGovernor _ regionName =>
      if truthy regionName
      then "page=region_control/region=" +:+ default "" regionName
      else "page=region_control"
  end.

(** The handlers that look at the response of [makeNsHtmlRequest]
    themselves rather than at the text of [getNsHtmlPage]. *)
Definition usesRawResponse (h : Handler) : bool :=
  match h with
  | HandleEndorse _ | HandleUnendorse _ => true
  | _ => false
  end.

(** A handler has shown a success bubble and returns [true], or has
    shown a warning and returns [false]. *)
Definition coherent (r : Reported) : Prop :=
  (returned r = true /\ exists msg, bubble r = ShownSuccess msg) \/
  (returned r = false /\ exists msg, bubble r = ShownWarn msg).

(** The optional region argument of the handlers of regional officers. *)
Definition scopeOf (h : Handler) : option (option string) :=
  match h with
  | HandleEditRO _ _ _ regionName | HandleDismissRO _ regionName
  | HandleEditDelegate _ regionName | HandleRenameGovernor _ regionName =>
      Some regionName
  | _ => None
  end.

(** The handlers and the methods with the stand-ins of the examples. *)
Definition sampleHandle : Handler -> World -> World * Task Reported :=
  handle sampleParseHtml sampleCanonicalize samplePrettify sampleTrim.

Definition sampleInvoke : Method -> World -> World * Task Reported :=
  invoke sampleParseHtml sampleCanonicalize samplePrettify sampleTrim.

(** The user input handler rejects. *)
Definition inputRefused : Env :=
  {| user_input := Some (Rejected {| err_class := OtherCls "AbortError";
                                     err_message := "cancelled" |});
     fetch_result := None;
     text_result := None |}.

(** A page without tokens and without markers. *)
Definition silentPage : string := "<p>Region Tags updated!</p>".

(** The response of an endorsement that the site has redirected to the
    page of the nation, and the same URL on a failed status. *)
Definition endorsedResponse : Response :=
  {| status := 200; statusText := "OK";
     url := "https://www.nationstates.net/nation=testlandia" |}.

Definition endorsedResponse500 : Response :=
  {| status := 500; statusText := "Internal Server Error";
     url := "https://www.nationstates.net/nation=testlandia" |}.

(** The request of an appointment with executive and border control
    authority in the region [lazarus]. *)
Definition officerRequest : Request :=
  buildRequest "page=region_control/region=lazarus"
    (Some [("nation", PStr "testlandia"); ("office_name", PStr "Warden");
           ("editofficer", PStr "1"); ("authority_B", PStr "on");
           ("authority_E", PStr "on"); ("region", PStr "lazarus")]) true idleWorld.

(** ** The string primitives *)

Lemma startsWith_spec (s p : string) :
  startsWith s p = true <-> exists rest, s = p +:+ rest.
Proof.
  revert s. induction p as [|c p IH]; intros s; simpl.
  - split; [intros _; exists s; reflexivity | reflexivity].
  - destruct s as [|d s].
    + split; [discriminate | intros [rest H]; discriminate].
    + destruct (Ascii.eqb_spec c d) as [->|Hne].
      * rewrite IH. split; intros [rest H]; exists rest.
        -- now rewrite H.
        -- now injection H.
      * split; [discriminate | intros [rest H]; injection H; congruence].
Qed.

Lemma includes_spec (s t : string) :
  includes s t = true <-> exists pre post, s = pre +:+ t +:+ post.
Proof.
  induction s as [|c s IH]; simpl.
  - rewrite orb_false_r, startsWith_spec. split.
    + intros [rest H]. exists "", rest. exact H.
    + intros [pre [post H]]. destruct pre; [exists post; exact H | discriminate].
  - rewrite orb_true_iff, startsWith_spec, IH. split.
    + intros [[rest H] | [pre [post H]]].
      * exists "", rest. exact H.
      * exists (String c pre), post. simpl. now rewrite H.
    + intros [pre [post H]]. destruct pre as [|d pre]; simpl in H.
      * left. exists post. exact H.
      * right. exists pre, post. now injection H.
Qed.

Lemma endsWith_spec (s t : string) :
  endsWith s t = true <-> exists pre, s = pre +:+ t.
Proof.
  induction s as [|c s IH].
  - destruct t as [|d t]; simpl.
    + split; [intros _; exists "" | intros _]; reflexivity.
    + split; [discriminate|]. intros [pre H]. destruct pre; discriminate.
  - change (endsWith (String c s) t)
      with ((if String.eqb (String c s) t then true else false) || endsWith s t).
    rewrite orb_true_iff, IH.
    destruct (String.eqb_spec (String c s) t) as [<-|Hne].
    + split; [intros _; exists ""; reflexivity | now left].
    + split.
      * intros [H | [pre H]]; [discriminate|].
        exists (String c pre). simpl. now rewrite H.
      * intros [pre H]. right. destruct pre as [|d pre]; simpl in H.
        -- exfalso. apply Hne. exact H.
        -- exists pre. now injection H.
Qed.

Lemma truthy_spec (v : option string) :
  truthy v = true <-> exists s, v = Some s /\ s <> "".
Proof.
  destruct v as [[|c s]|]; simpl; split; try discriminate.
  - intros [s [[= <-] H]]. congruence.
  - intros _. eexists. split; [reflexivity | discriminate].
  - intros _. reflexivity.
  - intros [s [H _]]. discriminate.
Qed.

(** ** The whole call, by cases on what the world answers *)

Arguments buildRequest : simpl never.

Lemma call_makeNsHtmlRequest (env : Env) pagePath payload followRedirects shouldUnlockSimul w :
  call env (makeNsHtmlRequest pagePath payload followRedirects shouldUnlockSimul) w =
  if isHtmlRequestInProgress (this w)
  then (emit (EvCheck false) w, Some (Rejected simultaneityError))
  else
    let w := emit EvUserInputCalled (emit (EvCheck true) w) in
    match user_input env with
    | None => (w, None)
    | Some (Rejected err) => (emit (EvUserInputSettled false) w, Some (Rejected err))
    | Some (Fulfilled _) =>
        let w := statusBubble_info ("Loading: " +:+ pagePath +:+ "...")
                   (handleLock (emit (EvUserInputSettled true) w)) in
        let w := emit (EvFetch (buildRequest pagePath payload followRedirects w)) w in
        match fetch_result env with
        | None => (w, None)
        | Some (Rejected err) => (handleUnlock w, Some (Rejected err))
        | Some (Fulfilled response) =>
            (if shouldUnlockSimul then then_unlock ReadBlob response w else w,
             Some (Fulfilled response))
        end
    end.
Proof.
  unfold call, makeNsHtmlRequest, handleCheck, userInputHandler, fetch.
  destruct (isHtmlRequestInProgress (this w)); simpl; [reflexivity|].
  destruct (user_input env) as [[[]|err]|]; simpl; try reflexivity.
  destruct (fetch_result env) as [[response|err]|]; simpl; reflexivity.
Qed.

Section PageRuns.

Variable parseHtml : string -> Document.

Lemma call_getNsHtmlPage (env : Env) pagePath payload w :
  call env (getNsHtmlPage parseHtml pagePath payload) w =
  match call env (makeNsHtmlRequest pagePath payload true false) w with
  | (w, None) => (w, None)
  | (w, Some (Rejected err)) => (w, Some (Rejected err))
  | (w, Some (Fulfilled response)) =>
      if ok response
      then
        let w := emit (EvBodyRead ReadText) w in
        match text_result env with
        | None => (w, None)
        | Some (Rejected err) => (w, Some (Rejected err))
        | Some (Fulfilled body) =>
            let w := handleUnlock w in
            if includes body "Failed security check"
            then (w, Some (Rejected securityCheckError))
            else if includes body "Border Patrol"
            then (w, Some (Rejected captchaError))
            else (storeAuth (parseHtml body) w, Some (Fulfilled body))
        end
      else (then_unlock ReadText response w, Some (Rejected (fetchFailedError response)))
  end.
Proof.
  unfold call, getNsHtmlPage, makeNsHtmlRequest, handleCheck, userInputHandler,
    fetch, response_text.
  destruct (isHtmlRequestInProgress (this w)); simpl; [reflexivity|].
  destruct (user_input env) as [[[]|err]|]; simpl; try reflexivity.
  destruct (fetch_result env) as [[response|err]|]; simpl; try reflexivity.
  destruct (ok response); simpl; [|reflexivity].
  destruct (text_result env) as [[body|err]|]; simpl; try reflexivity.
  destruct (includes body "Failed security check"); [reflexivity|].
  destruct (includes body "Border Patrol"); reflexivity.
Qed.

End PageRuns.

(** ** Worlds that differ in the gate, the trace and the detached
    continuations only *)

Lemma buildRequest_emit pagePath payload followRedirects e w :
  buildRequest pagePath payload followRedirects (emit e w) =
  buildRequest pagePath payload followRedirects w.
Proof. reflexivity. Qed.

Lemma buildRequest_set_in_progress pagePath payload followRedirects b w :
  buildRequest pagePath payload followRedirects (set_in_progress b w) =
  buildRequest pagePath payload followRedirects w.
Proof. reflexivity. Qed.

Lemma added_events_app (w w' : World) (evs : list Event) :
  trace w' = trace w ++ evs -> added_events w w' = evs.
Proof. intros H. unfold added_events. rewrite H. apply drop_app_length. Qed.

(** Brings the trace of a world built by the pipeline to the form
    [trace w ++ events]. *)
Ltac trace_norm :=
  unfold then_unlock, handleUnlock, handleLock, statusBubble_info, storeAuth;
  repeat match goal with
         | |- context [match ?d with Some _ => _ | None => _ end] => destruct d
         end;
  cbn [trace emit register set_in_progress setItem fst snd];
  rewrite <- ?app_assoc; cbn [app].

(** Splits a call of [makeNsHtmlRequest] into its exits. *)
Ltac make_cases env w :=
  rewrite call_makeNsHtmlRequest;
  destruct (isHtmlRequestInProgress (this w)) eqn:?;
  [| cbv zeta;
     destruct (user_input env) as [[[]|?]|] eqn:?;
     [destruct (fetch_result env) as [[?|?]|] eqn:? | | ]].

Lemma foldl_append (entries : Payload) (acc : URLSearchParams) :
  foldl (fun acc kv => append (fst kv) (String_of (snd kv)) acc) acc entries =
  acc ++ ((fun kv => (fst kv, String_of (snd kv))) <$> entries).
Proof.
  revert acc. induction entries as [|kv entries IH]; intros acc; simpl.
  - now rewrite app_nil_r.
  - rewrite IH. unfold append. now rewrite <- app_assoc.
Qed.

Lemma buildRequest_body pagePath payload followRedirects w :
  req_body (buildRequest pagePath payload followRedirects w) =
  callerFields payload ++ tokenFields w.
Proof.
  unfold buildRequest, callerFields, tokenFields, append. cbn [req_body].
  destruct payload as [entries|]; cbn [default]; [rewrite foldl_append|];
    destruct (truthy (getItem "lastKnownChk" w));
    destruct (truthy (getItem "lastKnownLocalid" w));
    cbn [app fmap list_fmap]; rewrite <- ?app_assoc, ?app_nil_r; reflexivity.
Qed.

Lemma buildRequest_search pagePath payload followRedirects w :
  url_search (req_url (buildRequest pagePath payload followRedirects w)) =
  [("userclick", pretty (Date_now w));
   ("script", scriptName (this w) +:+ " v" +:+ scriptVersion (this w) +:+ " by " +:+
              scriptAuthor (this w) +:+ " in use by " +:+ currentUser (this w))] ++
  (if endsWith pagePath ".cgi" then [] else [("template-overall", "none")]).
Proof.
  unfold buildRequest, append. cbn [req_url url_search].
  destruct (endsWith pagePath ".cgi"); reflexivity.
Qed.

(** Whatever the world answers, the only request a call of
    [makeNsHtmlRequest] hands to [fetch] is the one built from its
    arguments, the script's fields, the clock and the token store. *)
Lemma requests_of_makeNsHtmlRequest env pagePath payload followRedirects shouldUnlockSimul w req :
  req ∈ requests_of (added_events w
          (fst (call env (makeNsHtmlRequest pagePath payload followRedirects
                            shouldUnlockSimul) w))) ->
  req = buildRequest pagePath payload followRedirects w.
Proof.
  make_cases env w; try destruct shouldUnlockSimul;
    (erewrite added_events_app; [|trace_norm; reflexivity]);
    cbn [requests_of omap list_omap]; intros H;
    repeat match goal with
           | H : _ ∈ [] |- _ => inversion H
           | H : _ ∈ _ :: _ |- _ => inversion H; subst; clear H
           end; reflexivity.
Qed.

(** ** The outgoing request *)

(** C4, as the code has it: in every request handed to [fetch] the form
    body is the caller's fields, in the order of [Object.entries],
    followed by the fields taken from the token store, [chk] before
    [localid]; the caller's fields keep the first positions and every
    token field sits behind all of them. *)
Theorem tokens_follow_caller_fields env pagePath payload followRedirects
    shouldUnlockSimul w req :
  req ∈ requests_of (added_events w
          (fst (call env (makeNsHtmlRequest pagePath payload followRedirects
                            shouldUnlockSimul) w))) ->
  req_body req = callerFields payload ++ tokenFields w /\
  (forall (i : nat) field,
      callerFields payload !! i = Some field -> req_body req !! i = Some field) /\
  (forall (j : nat) field,
      tokenFields w !! j = Some field ->
      req_body req !! (length (callerFields payload) + j)%nat = Some field).
Proof.
  intros Hreq. apply requests_of_makeNsHtmlRequest in Hreq. subst req.
  rewrite buildRequest_body. split; [reflexivity|]. split.
  - intros i field H. now apply lookup_app_l_Some.
  - intros j field H. now rewrite lookup_app_r, Nat.add_comm, Nat.add_sub by lia.
Qed.

Lemma tokens_follow_caller_fields_witness :
  moveRequest ∈ requests_of (added_events idleWorld
      (fst (call (answers response200 "")
              (makeNsHtmlRequest "page=change_region" movePayload true true)
              idleWorld))) /\
  req_body moveRequest =
    [("region_name", "rwby"); ("move_region", "1"); ("chk", "c1")].
Proof.
  assert (Hsent : moveRequest ∈ requests_of (added_events idleWorld
      (fst (call (answers response200 "")
              (makeNsHtmlRequest "page=change_region" movePayload true true)
              idleWorld)))).
  { vm_compute. constructor. }
  split; [exact Hsent|].
  destruct (tokens_follow_caller_fields _ _ _ _ _ _ _ Hsent) as [Hbody _].
  rewrite Hbody. vm_compute. reflexivity.
Defined.

(** C4, as the spec states it, fails: the stored [chk] field is the last
    field of the body, behind both fields of the caller. *)
Lemma token_field_is_last :
  req_body <$> requests_of (added_events idleWorld
      (fst (call (answers response200 "")
              (makeNsHtmlRequest "page=change_region" movePayload true true)
              idleWorld))) =
  [[("region_name", "rwby"); ("move_region", "1"); ("chk", "c1")]].
Proof. vm_compute. reflexivity. Qed.

(** C8, as the code has it: behind the caller's fields the body carries
    a [chk] (a [localid]) field exactly when the store holds a non-empty
    value under [lastKnownChk] ([lastKnownLocalid]), with that value; a
    missing or empty value adds no field at all, and nothing else is
    injected. *)
Theorem token_field_iff_stored_nonempty env pagePath payload followRedirects
    shouldUnlockSimul w req :
  req ∈ requests_of (added_events w
          (fst (call env (makeNsHtmlRequest pagePath payload followRedirects
                            shouldUnlockSimul) w))) ->
  exists injected : URLSearchParams,
    req_body req = callerFields payload ++ injected /\
    (forall v, ("chk", v) ∈ injected <->
               getItem "lastKnownChk" w = Some v /\ v <> "") /\
    (forall v, ("localid", v) ∈ injected <->
               getItem "lastKnownLocalid" w = Some v /\ v <> "") /\
    (forall k v, (k, v) ∈ injected -> (k = "chk" \/ k = "localid") /\ v <> "").
Proof.
  intros Hreq. apply requests_of_makeNsHtmlRequest in Hreq. subst req.
  exists (tokenFields w). split; [apply buildRequest_body|].
  unfold tokenFields.
  destruct (getItem "lastKnownChk" w) as [[|c chk]|];
    destruct (getItem "lastKnownLocalid" w) as [[|l localid]|];
    cbn [truthy default app]; repeat split;
    repeat match goal with
           | |- _ -> _ => intros ?
           | H : _ /\ _ |- _ => destruct H
           | H : _ \/ _ |- _ => destruct H
           | H : _ ∈ [] |- _ => inversion H
           | H : _ ∈ _ :: _ |- _ => inversion H; subst; clear H
           | H : Some _ = Some _ |- _ => injection H as <-
           end;
    try discriminate; try congruence; auto;
    repeat constructor.
Qed.

Lemma token_field_iff_stored_nonempty_witness :
  moveRequest ∈ requests_of (added_events idleWorld
      (fst (call (answers response200 "")
              (makeNsHtmlRequest "page=change_region" movePayload true true)
              idleWorld))) /\
  exists injected : URLSearchParams,
    req_body moveRequest = callerFields movePayload ++ injected /\
    ("chk", "c1") ∈ injected /\
    (forall v, ("localid", v) ∉ injected).
Proof.
  assert (Hsent : moveRequest ∈ requests_of (added_events idleWorld
      (fst (call (answers response200 "")
              (makeNsHtmlRequest "page=change_region" movePayload true true)
              idleWorld)))).
  { vm_compute. constructor. }
  split; [exact Hsent|].
  destruct (token_field_iff_stored_nonempty _ _ _ _ _ _ _ Hsent)
    as (injected & Hbody & Hchk & Hlocalid & _).
  exists injected. split; [exact Hbody|]. split.
  - apply Hchk. split; [vm_compute; reflexivity | discriminate].
  - intros v Hin. apply Hlocalid in Hin as [Hstored _].
    vm_compute in Hstored. discriminate.
Defined.

(** C8, as the spec states it, fails: a store that holds the empty
    string under [lastKnownChk] has a value for the field, and yet the
    request carries no [chk] field. *)
Lemma empty_stored_chk_is_not_sent :
  getItem "lastKnownChk" emptyChkWorld = Some "" /\
  req_body <$> requests_of (added_events emptyChkWorld
      (fst (call (answers response200 "")
              (makeNsHtmlRequest "page=change_region" movePayload true true)
              emptyChkWorld))) =
  [[("region_name", "rwby"); ("move_region", "1")]].
Proof. split; vm_compute; reflexivity. Qed.

(** C9: in every request handed to [fetch] the query carries
    [template-overall=none] exactly when the page path does not end in
    [.cgi], and never carries the parameter with another value. *)
Theorem template_overall_iff_not_cgi env pagePath payload followRedirects
    shouldUnlockSimul w req :
  req ∈ requests_of (added_events w
          (fst (call env (makeNsHtmlRequest pagePath payload followRedirects
                            shouldUnlockSimul) w))) ->
  forall v, ("template-overall", v) ∈ url_search (req_url req) <->
            v = "none" /\ ~ exists pre, pagePath = pre +:+ ".cgi".
Proof.
  intros Hreq v. apply requests_of_makeNsHtmlRequest in Hreq. subst req.
  rewrite buildRequest_search, <- endsWith_spec.
  destruct (endsWith pagePath ".cgi"); cbn [app]; split.
  - intros H. repeat (inversion H as [|? ? ? H']; subst; clear H; try rename H' into H).
  - intros [_ H]. now destruct H.
  - intros H. repeat (inversion H as [|? ? ? H']; subst; clear H; try rename H' into H).
    split; [reflexivity | discriminate].
  - intros [-> _]. repeat constructor.
Qed.

Lemma template_overall_iff_not_cgi_witness :
  (moveRequest ∈ requests_of (added_events idleWorld
      (fst (call (answers response200 "")
              (makeNsHtmlRequest "page=change_region" movePayload true true)
              idleWorld))) /\
   ("template-overall", "none") ∈ url_search (req_url moveRequest)) /\
  (endorseRequest ∈ requests_of (added_events idleWorld
      (fst (call (answers response200 "")
              (makeNsHtmlRequest "cgi-bin/endorse.cgi"
                 (Some [("nation", PStr "testlandia"); ("action", PStr "endorse")])
                 true true)
              idleWorld))) /\
   forall v, ("template-overall", v) ∉ url_search (req_url endorseRequest)).
Proof.
  split.
  - assert (Hsent : moveRequest ∈ requests_of (added_events idleWorld
      (fst (call (answers response200 "")
              (makeNsHtmlRequest "page=change_region" movePayload true true)
              idleWorld)))).
    { vm_compute. constructor. }
    split; [exact Hsent|].
    apply (template_overall_iff_not_cgi _ _ _ _ _ _ _ Hsent). split; [reflexivity|].
    rewrite <- endsWith_spec. vm_compute. discriminate.
  - assert (Hsent : endorseRequest ∈ requests_of (added_events idleWorld
      (fst (call (answers response200 "")
              (makeNsHtmlRequest "cgi-bin/endorse.cgi"
                 (Some [("nation", PStr "testlandia"); ("action", PStr "endorse")])
                 true true)
              idleWorld)))).
    { vm_compute. constructor. }
    split; [exact Hsent|].
    intros v Hin. apply (template_overall_iff_not_cgi _ _ _ _ _ _ _ Hsent) in Hin.
    destruct Hin as [_ Hno]. apply Hno. exists "cgi-bin/endorse". reflexivity.
Defined.

(** ** The gate and the readiness signal *)

Ltac lookup_cases i H :=
  repeat (destruct i as [|i]; cbn in H; try discriminate H).

(** C6, as the spec states it, fails: the user input handler is called
    and awaited while the gate is still free.  A call on an idle script
    whose user has not answered yet has passed the check and called the
    handler, and the gate is not held; when the user answers, the gate
    is locked only after the answer, just before the request. *)
Lemma user_input_is_awaited_with_the_gate_free :
  (let w' := fst (moveCall userNotReady idleWorld) in
   added_events idleWorld w' = [EvCheck true; EvUserInputCalled] /\
   isHtmlRequestInProgress (this w') = false) /\
  gate_events (added_events idleWorld (fst (moveCall (answers response200 "") idleWorld))) =
    [EvCheck true; EvLock; EvFetch moveRequest] /\
  take 4 (added_events idleWorld (fst (moveCall (answers response200 "") idleWorld))) =
    [EvCheck true; EvUserInputCalled; EvUserInputSettled true; EvLock].
Proof. vm_compute. repeat split; reflexivity. Qed.

(** C6, as the code has it.  The user input handler is called by every
    call that finds the gate free, after the simultaneity check and
    before the gate is locked.  The gate is locked, and a request handed
    to [fetch], only in a run whose user input promise was fulfilled,
    and then in this order: successful check, call of the handler, its
    resolution, lock, request.  A call whose user input promise stays
    pending or rejects locks nothing and sends nothing. *)
Theorem fetch_follows_readiness env pagePath payload followRedirects
    shouldUnlockSimul w :
  exists added : list Event,
    trace (fst (call env (makeNsHtmlRequest pagePath payload followRedirects
                            shouldUnlockSimul) w)) = trace w ++ added /\
    (isHtmlRequestInProgress (this w) = false ->
     exists a : nat, added !! a = Some EvUserInputCalled) /\
    (forall a : nat, added !! a = Some EvUserInputCalled ->
       isHtmlRequestInProgress (this w) = false /\
       (exists c : nat, (c < a)%nat /\ added !! c = Some (EvCheck true)) /\
       (forall l : nat, added !! l = Some EvLock -> (a < l)%nat)) /\
    (forall l : nat, added !! l = Some EvLock ->
       user_input env = Some (Fulfilled ()) /\
       exists a s : nat,
         (a < s)%nat /\ (s < l)%nat /\
         added !! a = Some EvUserInputCalled /\
         added !! s = Some (EvUserInputSettled true)) /\
    (forall (i : nat) req, added !! i = Some (EvFetch req) ->
       user_input env = Some (Fulfilled ()) /\
       exists c a s l : nat,
         (c < a)%nat /\ (a < s)%nat /\ (s < l)%nat /\ (l < i)%nat /\
         added !! c = Some (EvCheck true) /\
         added !! a = Some EvUserInputCalled /\
         added !! s = Some (EvUserInputSettled true) /\
         added !! l = Some EvLock) /\
    (user_input env <> Some (Fulfilled ()) ->
     isHtmlRequestInProgress
       (this (fst (call env (makeNsHtmlRequest pagePath payload followRedirects
                               shouldUnlockSimul) w))) =
       isHtmlRequestInProgress (this w) /\
     forall i : nat,
       added !! i <> Some EvLock /\ forall req, added !! i <> Some (EvFetch req)).
Proof.
  make_cases env w; try destruct shouldUnlockSimul;
    (eexists; split; [trace_norm; reflexivity|]);
    (split; [intros Hfree; first [discriminate Hfree | exists 1%nat; reflexivity] |]);
    (split; [intros ia Ha; lookup_cases ia Ha;
             (split; [reflexivity |
              split; [exists 0%nat; split; [lia | reflexivity] |
                      intros il Hl; lookup_cases il Hl; lia]]) |]);
    (split; [intros il Hl; lookup_cases il Hl;
             (split; [reflexivity | exists 1%nat, 2%nat; repeat split; lia]) |]);
    (split; [intros ii req Hi; lookup_cases ii Hi;
             (split; [reflexivity |
                      exists 0%nat, 1%nat, 2%nat, 3%nat; repeat split; lia]) |]);
    intros Hinput; try congruence;
    (split; [first [reflexivity | assumption] |]);
    intros ii; (split; [| intros req]); intros Hi; lookup_cases ii Hi.
Qed.

Lemma fetch_follows_readiness_witness :
  exists added : list Event,
    added_events idleWorld (fst (moveCall (answers response200 "") idleWorld)) = added /\
    added !! 5%nat = Some (EvFetch moveRequest) /\
    user_input (answers response200 "") = Some (Fulfilled ()) /\
    exists c a s l : nat,
      (c < a)%nat /\ (a < s)%nat /\ (s < l)%nat /\ (l < 5)%nat /\
      added !! c = Some (EvCheck true) /\
      added !! a = Some EvUserInputCalled /\
      added !! s = Some (EvUserInputSettled true) /\
      added !! l = Some EvLock.
Proof.
  destruct (fetch_follows_readiness (answers response200 "") "page=change_region"
              movePayload true true idleWorld)
    as (added & Htrace & _ & _ & _ & Horder & _).
  exists added.
  assert (Hfetch : added !! 5%nat = Some (EvFetch moveRequest)).
  { change (trace idleWorld) with (@nil Event) in Htrace. cbn [app] in Htrace.
    rewrite <- Htrace. vm_compute. reflexivity. }
  split; [|split; [exact Hfetch | exact (Horder 5%nat moveRequest Hfetch)]].
  unfold moveCall, added_events. rewrite Htrace. reflexivity.
Defined.

(** The synchronous prefix of a call never touches the gate: a call
    that finds the gate free leaves it free while it waits for the user. *)
Lemma makeNsHtmlRequest_prefix_keeps_gate pagePath payload followRedirects
    shouldUnlockSimul w :
  isHtmlRequestInProgress
    (this (fst (makeNsHtmlRequest pagePath payload followRedirects shouldUnlockSimul w))) =
  isHtmlRequestInProgress (this w).
Proof.
  unfold makeNsHtmlRequest, handleCheck, userInputHandler.
  destruct (isHtmlRequestInProgress (this w)) eqn:E; cbn; exact E.
Qed.

(** A call that finds the gate free suspends on the user input handler. *)
Lemma makeNsHtmlRequest_free_gate pagePath payload followRedirects
    shouldUnlockSimul w :
  isHtmlRequestInProgress (this w) = false ->
  settled_now
    (snd (makeNsHtmlRequest pagePath payload followRedirects shouldUnlockSimul w)) = None.
Proof.
  intros E. unfold makeNsHtmlRequest, handleCheck, userInputHandler.
  rewrite E. reflexivity.
Qed.

(** A call that finds the gate held is rejected at once: it awaits
    nothing, sends nothing and leaves the gate and the store alone. *)
Lemma makeNsHtmlRequest_held_gate pagePath payload followRedirects
    shouldUnlockSimul w :
  isHtmlRequestInProgress (this w) = true ->
  makeNsHtmlRequest pagePath payload followRedirects shouldUnlockSimul w =
  (emit (EvCheck false) w, Settle (Rejected simultaneityError)).
Proof.
  intros E. unfold makeNsHtmlRequest, handleCheck. rewrite E. reflexivity.
Qed.

(** Two calls issued back to back can both be waiting for the user:
    whatever their arguments, the second finds the gate as free as the
    first did. *)
Lemma back_to_back_calls_both_wait p1 pl1 fr1 su1 p2 pl2 fr2 su2 w :
  isHtmlRequestInProgress (this w) = false ->
  let (w1, first) := makeNsHtmlRequest p1 pl1 fr1 su1 w in
  let (w2, second) := makeNsHtmlRequest p2 pl2 fr2 su2 w1 in
  settled_now first = None /\ settled_now second = None.
Proof.
  intros E.
  pose proof (makeNsHtmlRequest_prefix_keeps_gate p1 pl1 fr1 su1 w) as E1.
  pose proof (makeNsHtmlRequest_free_gate p1 pl1 fr1 su1 w E) as F1.
  destruct (makeNsHtmlRequest p1 pl1 fr1 su1 w) as [w1 first]. cbn [fst snd] in *.
  rewrite E in E1.
  pose proof (makeNsHtmlRequest_free_gate p2 pl2 fr2 su2 w1 E1) as F2.
  destruct (makeNsHtmlRequest p2 pl2 fr2 su2 w1) as [w2 second]. cbn [snd] in *.
  split; assumption.
Qed.

(** C2 on the code: two calls issued back to back on an idle script.
    The second call is not rejected, because the first has not locked
    the gate yet when it suspends on the user input handler; once the
    readiness signal has fired for both, both have locked the gate and
    both requests are in flight, with no unlock in between. *)
Example second_call_is_not_rejected :
  let '(w1, first) := makeNsHtmlRequest "page=ga" None true true idleWorld in
  let '(w2, second) := makeNsHtmlRequest "page=sc" None true true w1 in
  let '(w3, first') := deliver_input first (Fulfilled ()) w2 in
  let '(w4, second') := deliver_input second (Fulfilled ()) w3 in
  isHtmlRequestInProgress (this w1) = false /\
  settled_now second = None /\
  fetching first' = Some (buildRequest "page=ga" None true idleWorld) /\
  fetching second' = Some (buildRequest "page=sc" None true idleWorld) /\
  gate_events (trace w4) =
    [EvCheck true; EvCheck true;
     EvLock; EvFetch (buildRequest "page=ga" None true idleWorld);
     EvLock; EvFetch (buildRequest "page=sc" None true idleWorld)].
Proof. vm_compute. repeat split; reflexivity. Qed.

(** ** Detached continuations *)

Lemma foldl_run_detached_gate (ds : list Detached) (w : World) :
  isHtmlRequestInProgress (this (foldl run_detached w ds)) =
  match ds with
  | [] => isHtmlRequestInProgress (this w)
  | _ :: _ => false
  end.
Proof.
  revert w. induction ds as [|d ds IH]; intros w; [reflexivity|].
  cbn [foldl]. rewrite IH. destruct ds, d; reflexivity.
Qed.

(** Once the bodies have been read the gate is free, provided it was
    free already or some continuation was waiting to free it. *)
Lemma bodies_consumed_gate (w : World) :
  isHtmlRequestInProgress (this w) = false \/ detached w <> [] ->
  isHtmlRequestInProgress (this (bodies_consumed w)) = false.
Proof.
  unfold bodies_consumed. rewrite foldl_run_detached_gate.
  destruct (detached w); [|reflexivity].
  intros [H | H]; [exact H | congruence].
Qed.

(** ** Pages *)

Ltac elem_of_cases :=
  repeat match goal with
         | H : _ ∈ [] |- _ => inversion H
         | H : _ ∈ _ :: _ |- _ => inversion H; subst; clear H
         end.

Section PageClaims.

Variable parseHtml : string -> Document.

(** Splits a call of [getNsHtmlPage] into its exits. *)
Ltac page_cases env w :=
  rewrite call_getNsHtmlPage; make_cases env w; cbv beta iota zeta;
  repeat match goal with
         | |- context [if ok ?r then _ else _] => destruct (ok r) eqn:?
         | |- context [match text_result env with Some _ => _ | None => _ end] =>
             destruct (text_result env) as [[?|?]|] eqn:?
         | |- context [if includes ?b ?m then _ else _] =>
             destruct (includes b m) eqn:?
         end.

(** C5: a response whose status is outside 200..299 fails with the
    fetch failure whatever its body is (the body is not even read);
    on a 2xx response the security check marker is looked for first,
    so a body with both markers fails with the security check error;
    the captcha error needs a 2xx response without the first marker;
    the text is returned only for a 2xx response with neither marker. *)
Theorem classification_precedence env pagePath payload w response :
  isHtmlRequestInProgress (this w) = false ->
  user_input env = Some (Fulfilled ()) ->
  fetch_result env = Some (Fulfilled response) ->
  let outcome := snd (call env (getNsHtmlPage parseHtml pagePath payload) w) in
  (ok response = true <-> 200 <= status response <= 299) /\
  (ok response = false -> outcome = Some (Rejected (fetchFailedError response))) /\
  (ok response = true ->
   forall body, text_result env = Some (Fulfilled body) ->
     (includes body "Failed security check" = true ->
      outcome = Some (Rejected securityCheckError)) /\
     (includes body "Failed security check" = false ->
      includes body "Border Patrol" = true ->
      outcome = Some (Rejected captchaError)) /\
     (includes body "Failed security check" = false ->
      includes body "Border Patrol" = false ->
      outcome = Some (Fulfilled body))).
Proof.
  intros Hfree Hinput Hfetch outcome. subst outcome.
  rewrite call_getNsHtmlPage, call_makeNsHtmlRequest, Hfree, Hinput, Hfetch.
  cbv beta iota zeta. split; [|split].
  - unfold ok. rewrite andb_true_iff, !Z.leb_le. reflexivity.
  - intros ->. reflexivity.
  - intros -> body ->. cbv beta iota zeta. repeat split.
    + intros ->. reflexivity.
    + intros -> ->. reflexivity.
    + intros -> ->. reflexivity.
Qed.

(** C10: a call of [getNsHtmlPage] that fails, with the security check
    error, with the captcha error or in any other way, has not called
    [storeAuth] and leaves the token store as it found it. *)
Theorem failed_page_keeps_tokens env pagePath payload w w' err :
  call env (getNsHtmlPage parseHtml pagePath payload) w = (w', Some (Rejected err)) ->
  localStorage w' = localStorage w /\
  forall doc, EvStoreAuth doc ∉ added_events w w'.
Proof.
  page_cases env w; intros H; (discriminate H || injection H as <- Ho);
    (split; [reflexivity|]); intros doc Hin;
    (erewrite added_events_app in Hin; [|trace_norm; reflexivity]);
    elem_of_cases.
Qed.

(** C3, as the code has it: a call of [getNsHtmlPage] that returns has
    released the gate and then updated the token store, as its last
    two actions; on return the gate is free and the store holds every
    token the document carries (and its previous value for a token the
    document lacks), so the request of the next call carries them. *)
Theorem unlock_precedes_storeAuth env pagePath payload w w' body :
  call env (getNsHtmlPage parseHtml pagePath payload) w = (w', Some (Fulfilled body)) ->
  (exists before : list Event,
      added_events w w' = before ++ [EvUnlock; EvStoreAuth (parseHtml body)] /\
      (EvUnlock ∉ before) /\ (EvStoreAuth (parseHtml body) ∉ before)) /\
  isHtmlRequestInProgress (this w') = false /\
  getItem "lastKnownChk" w' =
    (if doc_chk (parseHtml body) is Some chk then Some chk
     else getItem "lastKnownChk" w) /\
  getItem "lastKnownLocalid" w' =
    (if doc_localid (parseHtml body) is Some localid then Some localid
     else getItem "lastKnownLocalid" w) /\
  forall nextPath nextPayload followRedirects,
    req_body (buildRequest nextPath nextPayload followRedirects w') =
    callerFields nextPayload ++ tokenFields w'.
Proof.
  page_cases env w; intros H; (discriminate H || injection H as <- ->).
  split; [|split; [|split; [|split]]].
  - (erewrite added_events_app; [|trace_norm; reflexivity]).
    eexists [_; _; _; _; _; _; _]. split; [reflexivity|].
    split; intros Hin; elem_of_cases.
  - unfold storeAuth. now destruct (doc_chk _), (doc_localid _).
  - unfold storeAuth, getItem.
    destruct (doc_chk (parseHtml body)), (doc_localid (parseHtml body));
      unfold handleUnlock, handleLock, statusBubble_info;
      cbn [localStorage setItem emit set_in_progress];
      repeat (rewrite lookup_insert_eq || rewrite lookup_insert_ne by discriminate);
      reflexivity.
  - unfold storeAuth, getItem.
    destruct (doc_chk (parseHtml body)), (doc_localid (parseHtml body));
      unfold handleUnlock, handleLock, statusBubble_info;
      cbn [localStorage setItem emit set_in_progress];
      repeat (rewrite lookup_insert_eq || rewrite lookup_insert_ne by discriminate);
      reflexivity.
  - intros. apply buildRequest_body.
Qed.

(** C1, as the code has it, for a call that finds the gate free.
    [makeNsHtmlRequest] with [shouldUnlockSimul] set: a rejection
    (of the user input, or of [fetch]) reaches the caller with the
    gate free; a response is returned with the gate still held and
    one continuation detached on [response.blob()], which frees the
    gate once the body has been read.  [getNsHtmlPage], as long as
    [response.text()] does not reject: on a response that is not ok
    the call throws the fetch failure with the gate still held and
    exactly one continuation detached on [response.text()], which
    frees the gate once the body has been read; on every other exit
    (the user input or [fetch] rejects, or the response is ok) the
    gate is free when the call returns or throws and nothing is
    detached.  In every case the gate is free once the call has
    settled and the bodies have been read. *)
Theorem gate_released_once_body_is_read env pagePath payload followRedirects w :
  isHtmlRequestInProgress (this w) = false ->
  (forall w' outcome,
      call env (makeNsHtmlRequest pagePath payload followRedirects true) w =
        (w', Some outcome) ->
      match outcome with
      | Rejected _ =>
          isHtmlRequestInProgress (this w') = false /\ detached w' = detached w
      | Fulfilled response =>
          isHtmlRequestInProgress (this w') = true /\
          detached w' = detached w ++ [ThenUnlock ReadBlob response]
      end /\
      isHtmlRequestInProgress (this (bodies_consumed w')) = false) /\
  (forall w' outcome,
      call env (getNsHtmlPage parseHtml pagePath payload) w = (w', Some outcome) ->
      (forall err, text_result env <> Some (Rejected err)) ->
      match user_input env, fetch_result env with
      | Some (Fulfilled _), Some (Fulfilled response) =>
          if ok response
          then isHtmlRequestInProgress (this w') = false /\
               detached w' = detached w
          else outcome = Rejected (fetchFailedError response) /\
               isHtmlRequestInProgress (this w') = true /\
               detached w' = detached w ++ [ThenUnlock ReadText response]
      | _, _ =>
          (exists err, outcome = Rejected err) /\
          isHtmlRequestInProgress (this w') = false /\
          detached w' = detached w
      end /\
      isHtmlRequestInProgress (this (bodies_consumed w')) = false).
Proof.
  intros Hfree. split; intros w' outcome.
  - make_cases env w; try congruence;
      intros H; (discriminate H || injection H as <- <-);
      (split; [split|]);
      try (apply bodies_consumed_gate;
           first [ left; first [reflexivity | assumption]
                 | right; cbn; now destruct (detached w) ]);
      first [reflexivity | assumption].
  - page_cases env w; try congruence;
      intros H Htext; (discriminate H || injection H as <- <-);
      try (exfalso; eapply Htext; reflexivity).
    all: split;
      [| apply bodies_consumed_gate; first
           [ left; unfold storeAuth; repeat case_match;
             first [reflexivity | assumption]
           | right; cbn; now destruct (detached w) ] ].
    all: try (split; [eexists; reflexivity | split; first [reflexivity | assumption]]).
    all: try (split; first [reflexivity | assumption]).
    all: try (repeat split; reflexivity).
    unfold storeAuth. repeat case_match; split; reflexivity.
Qed.

(** C7, as the code has it: every failure that the pipeline raises
    itself is a plain [Error]: the simultaneity failure, the fetch
    failure, the security check failure and the captcha failure have
    one and the same class.  What tells them apart is the message,
    which differs between any two of them; the message of the fetch
    failure carries the status text of the response, and the numeric
    status is in none of them. *)
Theorem failures_are_plain_errors env pagePath payload w w' err :
  call env (getNsHtmlPage parseHtml pagePath payload) w = (w', Some (Rejected err)) ->
  (forall e, user_input env <> Some (Rejected e)) ->
  (forall e, fetch_result env <> Some (Rejected e)) ->
  (forall e, text_result env <> Some (Rejected e)) ->
  err_class err = ErrorCls /\
  (err = simultaneityError \/
   (exists response,
       fetch_result env = Some (Fulfilled response) /\
       err = new_Error ("Failed to fetch page: " +:+ statusText response)) \/
   err = securityCheckError \/
   err = captchaError) /\
  (forall response,
      err_message simultaneityError <> err_message (fetchFailedError response) /\
      err_message simultaneityError <> err_message securityCheckError /\
      err_message simultaneityError <> err_message captchaError /\
      err_message (fetchFailedError response) <> err_message securityCheckError /\
      err_message (fetchFailedError response) <> err_message captchaError /\
      err_message securityCheckError <> err_message captchaError).
Proof.
  intros H Hinput Hfetch Htext. split; [|split].
  - revert H. page_cases env w; intros H;
      (discriminate H || injection H as <- <-);
      solve [reflexivity
            | exfalso; eapply Hinput; reflexivity
            | exfalso; eapply Hfetch; reflexivity
            | exfalso; eapply Htext; reflexivity].
  - revert H. page_cases env w; intros H;
      (discriminate H || injection H as <- <-);
      solve [ now left
            | right; left; eexists; split; reflexivity
            | right; right; now left
            | right; right; now right
            | exfalso; eapply Hinput; reflexivity
            | exfalso; eapply Hfetch; reflexivity
            | exfalso; eapply Htext; reflexivity].
  - intros response. cbn. repeat split; discriminate.
Qed.

End PageClaims.

(** ** The claims on sample calls *)

(** C1, as the spec states it, fails: [makeNsHtmlRequest] returns its
    response to the caller while the gate is still held; only the
    continuation it left on [response.blob()] frees it. *)
Lemma makeNsHtmlRequest_returns_with_gate_held :
  snd (moveCall (answers response200 "") idleWorld) = Some (Fulfilled response200) /\
  isHtmlRequestInProgress (this (fst (moveCall (answers response200 "") idleWorld))) = true /\
  detached (fst (moveCall (answers response200 "") idleWorld)) =
    [ThenUnlock ReadBlob response200].
Proof. vm_compute. repeat split; reflexivity. Qed.

(** The exit that the statement above leaves out: when
    [response.text()] rejects on a 2xx response, [getNsHtmlPage] throws
    with the gate held and nothing is left behind to free it. *)
Example text_rejection_leaves_gate_held :
  (exists err, snd (movePage bodyReadFails idleWorld) = Some (Rejected err)) /\
  isHtmlRequestInProgress (this (fst (movePage bodyReadFails idleWorld))) = true /\
  detached (fst (movePage bodyReadFails idleWorld)) = [] /\
  isHtmlRequestInProgress
    (this (bodies_consumed (fst (movePage bodyReadFails idleWorld)))) = true.
Proof. vm_compute. split; [eexists; reflexivity | repeat split; reflexivity]. Qed.

Lemma gate_released_once_body_is_read_witness :
  isHtmlRequestInProgress (this idleWorld) = false /\
  (isHtmlRequestInProgress (this (fst (moveCall networkDown idleWorld))) = false /\
   isHtmlRequestInProgress
     (this (bodies_consumed (fst (moveCall (answers response200 "") idleWorld)))) = false) /\
  (isHtmlRequestInProgress (this (fst (movePage (answers response200 freshPage) idleWorld))) = false /\
   (snd (movePage (answers response500 "") idleWorld) =
      Some (Rejected (fetchFailedError response500)) /\
    isHtmlRequestInProgress (this (fst (movePage (answers response500 "") idleWorld))) = true /\
    detached (fst (movePage (answers response500 "") idleWorld)) =
      [ThenUnlock ReadText response500]) /\
   isHtmlRequestInProgress
     (this (bodies_consumed (fst (movePage (answers response500 "") idleWorld)))) = false).
Proof.
  assert (Hfree : isHtmlRequestInProgress (this idleWorld) = false) by reflexivity.
  split; [exact Hfree|]. split; [split | split; [|split]].
  - destruct (gate_released_once_body_is_read sampleParseHtml networkDown
                "page=change_region" movePayload true idleWorld Hfree) as [Hraw _].
    refine (proj1 (proj1 (Hraw _ (Rejected _) _))). vm_compute. reflexivity.
  - destruct (gate_released_once_body_is_read sampleParseHtml (answers response200 "")
                "page=change_region" movePayload true idleWorld Hfree) as [Hraw _].
    refine (proj2 (Hraw _ (Fulfilled response200) _)). vm_compute. reflexivity.
  - destruct (gate_released_once_body_is_read sampleParseHtml (answers response200 freshPage)
                "page=change_region" movePayload true idleWorld Hfree) as [_ Hpage].
    refine (proj1 (proj1 (Hpage _ (Fulfilled freshPage) _ _)));
      [vm_compute; reflexivity | discriminate].
  - destruct (gate_released_once_body_is_read sampleParseHtml (answers response500 "")
                "page=change_region" movePayload true idleWorld Hfree) as [_ Hpage].
    destruct (Hpage (fst (movePage (answers response500 "") idleWorld))
                (Rejected (fetchFailedError response500)))
      as [(_ & Hheld & Hdetached) _];
      [vm_compute; reflexivity | discriminate |].
    split; [vm_compute; reflexivity | split; [exact Hheld | exact Hdetached]].
  - destruct (gate_released_once_body_is_read sampleParseHtml (answers response500 "")
                "page=change_region" movePayload true idleWorld Hfree) as [_ Hpage].
    refine (proj2 (Hpage _ (Rejected (fetchFailedError response500)) _ _));
      [vm_compute; reflexivity | discriminate].
Defined.

(** C3, as the spec states it, fails: on a page with fresh tokens the
    last two actions of the call are the release of the gate and then
    the update of the store, in this order. *)
Lemma gate_is_released_before_storeAuth :
  snd (movePage (answers response200 freshPage) idleWorld) = Some (Fulfilled freshPage) /\
  drop 6 (added_events idleWorld (fst (movePage (answers response200 freshPage) idleWorld))) =
    [EvBodyRead ReadText; EvUnlock;
     EvStoreAuth {| doc_chk := Some "c2"; doc_localid := Some "l2" |}].
Proof. vm_compute. split; reflexivity. Qed.

Lemma unlock_precedes_storeAuth_witness :
  movePage (answers response200 freshPage) idleWorld =
    (fst (movePage (answers response200 freshPage) idleWorld), Some (Fulfilled freshPage)) /\
  getItem "lastKnownChk" (fst (movePage (answers response200 freshPage) idleWorld)) = Some "c2" /\
  getItem "lastKnownLocalid" (fst (movePage (answers response200 freshPage) idleWorld)) = Some "l2" /\
  req_body (buildRequest "page=UN_Status" (Some [("action", PStr "join_UN")]) true
              (fst (movePage (answers response200 freshPage) idleWorld))) =
    [("action", "join_UN"); ("chk", "c2"); ("localid", "l2")].
Proof.
  assert (Hrun : movePage (answers response200 freshPage) idleWorld =
    (fst (movePage (answers response200 freshPage) idleWorld), Some (Fulfilled freshPage))).
  { vm_compute. reflexivity. }
  split; [exact Hrun|].
  destruct (unlock_precedes_storeAuth sampleParseHtml _ _ _ _ _ _ Hrun)
    as (_ & _ & Hchk & Hlocalid & Hnext).
  split; [|split].
  - rewrite Hchk. vm_compute. reflexivity.
  - rewrite Hlocalid. vm_compute. reflexivity.
  - rewrite Hnext. vm_compute. reflexivity.
Defined.

Lemma classification_precedence_witness :
  (isHtmlRequestInProgress (this idleWorld) = false /\
   user_input (answers response200 bothMarkersPage) = Some (Fulfilled ()) /\
   fetch_result (answers response200 bothMarkersPage) = Some (Fulfilled response200)) /\
  includes bothMarkersPage "Border Patrol" = true /\
  snd (movePage (answers response200 bothMarkersPage) idleWorld) =
    Some (Rejected securityCheckError) /\
  snd (movePage (answers response500 freshPage) idleWorld) =
    Some (Rejected (fetchFailedError response500)).
Proof.
  split; [repeat split|]. split; [vm_compute; reflexivity|]. split.
  - destruct (classification_precedence sampleParseHtml (answers response200 bothMarkersPage)
                "page=change_region" movePayload idleWorld response200
                eq_refl eq_refl eq_refl) as (_ & _ & Hok).
    destruct (Hok eq_refl bothMarkersPage eq_refl) as (Hauth & _).
    apply Hauth. vm_compute. reflexivity.
  - destruct (classification_precedence sampleParseHtml (answers response500 freshPage)
                "page=change_region" movePayload idleWorld response500
                eq_refl eq_refl eq_refl) as (_ & Hfail & _).
    apply Hfail. reflexivity.
Defined.

(** C7, as the spec states it, fails: the four failures, raised on four
    sample calls, are values of one class, and two transport failures
    with different statuses are the same error. *)
Lemma failures_share_one_class :
  exists e1 e2 e3 e4 : JsError,
    snd (movePage (answers response200 "") busyWorld) = Some (Rejected e1) /\
    snd (movePage (answers response500 "") idleWorld) = Some (Rejected e2) /\
    snd (movePage (answers response200 bothMarkersPage) idleWorld) = Some (Rejected e3) /\
    snd (movePage (answers response200 captchaPage) idleWorld) = Some (Rejected e4) /\
    err_class e1 = err_class e2 /\
    err_class e2 = err_class e3 /\
    err_class e3 = err_class e4 /\
    snd (movePage (answers response503 "") idleWorld) = Some (Rejected e2).
Proof.
  exists simultaneityError, (fetchFailedError response500), securityCheckError, captchaError.
  vm_compute. repeat split; reflexivity.
Qed.

Lemma failures_are_plain_errors_witness :
  movePage (answers response200 captchaPage) idleWorld =
    (fst (movePage (answers response200 captchaPage) idleWorld),
     Some (Rejected captchaError)) /\
  err_class captchaError = ErrorCls /\
  err_message captchaError <> err_message securityCheckError.
Proof.
  assert (Hrun : movePage (answers response200 captchaPage) idleWorld =
    (fst (movePage (answers response200 captchaPage) idleWorld),
     Some (Rejected captchaError))).
  { vm_compute. reflexivity. }
  split; [exact Hrun|].
  destruct (failures_are_plain_errors sampleParseHtml _ _ _ _ _ _ Hrun)
    as (Hclass & _ & Hmessages); try discriminate.
  split; [exact Hclass|].
  destruct (Hmessages response200) as (_ & _ & _ & _ & _ & Hne).
  intros Heq. apply Hne. symmetry. exact Heq.
Defined.

Lemma failed_page_keeps_tokens_witness :
  movePage (answers response200 bothMarkersPage) idleWorld =
    (fst (movePage (answers response200 bothMarkersPage) idleWorld),
     Some (Rejected securityCheckError)) /\
  localStorage (fst (movePage (answers response200 bothMarkersPage) idleWorld)) =
    localStorage idleWorld.
Proof.
  assert (Hrun : movePage (answers response200 bothMarkersPage) idleWorld =
    (fst (movePage (answers response200 bothMarkersPage) idleWorld),
     Some (Rejected securityCheckError))).
  { vm_compute. reflexivity. }
  split; [exact Hrun|].
  exact (proj1 (failed_page_keeps_tokens sampleParseHtml _ _ _ _ _ _ Hrun)).
Defined.

(** ** Awaiting a call inside another call *)

(** Running [await inner rest] is running [inner] and then, if it
    settles, the rest. *)
Lemma run_await {A B : Type} (env : Env)
    (rest : Settled A -> World -> World * Task B) (inner : Task A) (w : World) :
  (let (w1, t1) := await inner rest w in run env t1 w1) =
  match run env inner w with
  | (w', Some o) => let (w'', t'') := rest o w' in run env t'' w''
  | (w', None) => (w', None)
  end.
Proof.
  revert inner w. fix IH 1. intros [o | k | req k | r k] w; cbn [await run].
  - destruct (rest o w); reflexivity.
  - destruct (user_input env) as [a|]; [|reflexivity].
    destruct (k a w) as [w' t']. apply IH.
  - destruct (fetch_result env) as [a|]; [|reflexivity].
    destruct (k a w) as [w' t']. apply IH.
  - destruct (text_result env) as [a|]; [|reflexivity].
    destruct (k a w) as [w' t']. apply IH.
Qed.

Section HandlerRuns.

Variable parseHtml : string -> Document.

Lemma call_awaitPage {A : Type} (env : Env) pagePath payload (rest : string -> A) w :
  call env (awaitPage parseHtml pagePath payload rest) w =
  match call env (getNsHtmlPage parseHtml pagePath payload) w with
  | (w', Some (Fulfilled text)) => (w', Some (Fulfilled (rest text)))
  | (w', Some (Rejected err)) => (w', Some (Rejected err))
  | (w', None) => (w', None)
  end.
Proof.
  unfold call, awaitPage.
  destruct (getNsHtmlPage parseHtml pagePath payload w) as [w1 page].
  rewrite run_await. destruct (run env page w1) as [w' [[text|err]|]]; reflexivity.
Qed.

Lemma call_awaitRequest {A : Type} (env : Env) pagePath payload (rest : Response -> A) w :
  call env (awaitRequest pagePath payload rest) w =
  match call env (makeNsHtmlRequest pagePath payload true true) w with
  | (w', Some (Fulfilled response)) => (w', Some (Fulfilled (rest response)))
  | (w', Some (Rejected err)) => (w', Some (Rejected err))
  | (w', None) => (w', None)
  end.
Proof.
  unfold call, awaitRequest.
  destruct (makeNsHtmlRequest pagePath payload true true w) as [w1 request].
  rewrite run_await. destruct (run env request w1) as [w' [[response|err]|]]; reflexivity.
Qed.

End HandlerRuns.

(** ** More on the pipeline *)

(** Splits a call of [getNsHtmlPage] into its exits. *)
Ltac page_exits env w :=
  rewrite call_getNsHtmlPage; make_cases env w; cbv beta iota zeta;
  repeat match goal with
         | |- context [if ok ?r then _ else _] => destruct (ok r) eqn:?
         | |- context [match text_result env with Some _ => _ | None => _ end] =>
             destruct (text_result env) as [[?|?]|] eqn:?
         | |- context [if includes ?b ?m then _ else _] =>
             destruct (includes b m) eqn:?
         end.

Ltac settle H := first [discriminate H | injection H as <- <-].

Section Pipeline.

Variable parseHtml : string -> Document.

(** The requests a call sends, by cases, for a page path that
    [new URL] parses. *)
Lemma requests_of_call env pagePath payload followRedirects shouldUnlockSimul w :
  requests_of (added_events w
    (fst (call env (makeNsHtmlRequest pagePath payload followRedirects
                      shouldUnlockSimul) w))) =
    (if isHtmlRequestInProgress (this w) then []
     else if user_input env is Some (Fulfilled _)
          then [buildRequest pagePath payload followRedirects w] else []) /\
  requests_of (added_events w
    (fst (call env (getNsHtmlPage parseHtml pagePath payload) w))) =
    (if isHtmlRequestInProgress (this w) then []
     else if user_input env is Some (Fulfilled _)
          then [buildRequest pagePath payload true w] else []).
Proof.
  split.
  - make_cases env w; try destruct shouldUnlockSimul;
      (erewrite added_events_app; [|trace_norm; reflexivity]); reflexivity.
  - page_exits env w;
      (erewrite added_events_app; [|trace_norm; reflexivity]); reflexivity.
Qed.

(** A call at a held gate. *)
Lemma call_at_held_gate env pagePath payload followRedirects
    shouldUnlockSimul w :
  isHtmlRequestInProgress (this w) = true ->
  call env (makeNsHtmlRequest pagePath payload followRedirects shouldUnlockSimul) w =
    (emit (EvCheck false) w, Some (Rejected simultaneityError)) /\
  call env (getNsHtmlPage parseHtml pagePath payload) w =
    (emit (EvCheck false) w, Some (Rejected simultaneityError)).
Proof.
  intros Hheld.
  rewrite call_getNsHtmlPage, !call_makeNsHtmlRequest, Hheld. split; reflexivity.
Qed.

(** A call made while the gate is held is rejected on the spot with the
    simultaneity error: the failed check is all that happens, nothing is
    awaited or sent, and the gate, the store and the continuations left
    behind by the operation in flight are as they were. *)
Theorem held_gate_rejects_at_once env pagePath payload followRedirects
    shouldUnlockSimul w :
  isHtmlRequestInProgress (this w) = true ->
  call env (makeNsHtmlRequest pagePath payload followRedirects shouldUnlockSimul) w =
    (emit (EvCheck false) w, Some (Rejected simultaneityError)) /\
  call env (getNsHtmlPage parseHtml pagePath payload) w =
    (emit (EvCheck false) w, Some (Rejected simultaneityError)).
Proof.
  intros Hheld.
  rewrite call_getNsHtmlPage, !call_makeNsHtmlRequest, Hheld. split; reflexivity.
Qed.

(** When the user input handler rejects, the call rejects with the very
    same error before anything has happened: the gate has not been
    locked, no status is shown, nothing is sent, the store is as it was. *)
Theorem rejected_user_input_stops_the_call env pagePath payload w err :
  isHtmlRequestInProgress (this w) = false ->
  user_input env = Some (Rejected err) ->
  let (w', outcome) := call env (getNsHtmlPage parseHtml pagePath payload) w in
  outcome = Some (Rejected err) /\
  added_events w w' = [EvCheck true; EvUserInputCalled; EvUserInputSettled false] /\
  isHtmlRequestInProgress (this w') = false /\
  localStorage w' = localStorage w /\
  detached w' = detached w.
Proof.
  intros Hfree Hinput.
  rewrite call_getNsHtmlPage, call_makeNsHtmlRequest, Hfree, Hinput. cbv zeta.
  repeat split; try assumption.
  apply added_events_app. trace_norm. reflexivity.
Qed.

(** When [fetch] rejects, [getNsHtmlPage] rejects with the very same
    error; the gate was locked before the request and is unlocked by the
    time the error reaches the caller, the loading status has been
    shown, and the store is as it was. *)
Theorem rejected_fetch_unlocks_and_rethrows env pagePath payload w err :
  isHtmlRequestInProgress (this w) = false ->
  user_input env = Some (Fulfilled ()) ->
  fetch_result env = Some (Rejected err) ->
  let (w', outcome) := call env (getNsHtmlPage parseHtml pagePath payload) w in
  outcome = Some (Rejected err) /\
  added_events w w' =
    [EvCheck true; EvUserInputCalled; EvUserInputSettled true; EvLock;
     EvStatusInfo ("Loading: " +:+ pagePath +:+ "...");
     EvFetch (buildRequest pagePath payload true w); EvUnlock] /\
  isHtmlRequestInProgress (this w') = false /\
  localStorage w' = localStorage w /\
  detached w' = detached w.
Proof.
  intros Hfree Hinput Hfetch.
  rewrite call_getNsHtmlPage, call_makeNsHtmlRequest, Hfree, Hinput, Hfetch. cbv zeta.
  repeat split.
  apply added_events_app. trace_norm. reflexivity.
Qed.

(** Every request is a POST with the cookies attached, to the page path
    resolved against the fast host when the script runs on it and
    against the www host otherwise; the base always ends in a slash, so
    the slash the code would add is never needed.  Redirects are
    followed exactly when [followRedirects] is set, and [getNsHtmlPage]
    always sets it. *)
Theorem request_transport_settings env pagePath payload followRedirects
    shouldUnlockSimul w req :
  req ∈ requests_of (added_events w
          (fst (call env (makeNsHtmlRequest pagePath payload followRedirects
                            shouldUnlockSimul) w))) \/
  (followRedirects = true /\
   req ∈ requests_of (added_events w
           (fst (call env (getNsHtmlPage parseHtml pagePath payload) w)))) ->
  req_method req = "POST" /\
  req_credentials req = "include" /\
  req_redirect req = (if followRedirects then follow else manual) /\
  url_ref (req_url req) = pagePath /\
  url_base (req_url req) =
    (if String.eqb (location_host w) "fast.nationstates.net"
     then "https://fast.nationstates.net/"
     else "https://www.nationstates.net/").
Proof.
  intros Hsent.
  assert (req = buildRequest pagePath payload followRedirects w) as ->.
  { destruct Hsent as [H | [-> H]].
    - eapply requests_of_makeNsHtmlRequest, H.
    - rewrite (proj2 (requests_of_call env pagePath payload true true w)) in H.
      destruct (isHtmlRequestInProgress (this w)); [inversion H|].
      destruct (user_input env) as [[[]|?]|]; inversion H; subst;
        [reflexivity | match goal with H' : _ ∈ [] |- _ => inversion H' end]. }
  unfold buildRequest, getRequestDomain. cbn [req_method req_credentials req_redirect
    req_url url_ref url_base].
  repeat split. destruct (String.eqb (location_host w) "fast.nationstates.net");
    reflexivity.
Qed.

(** The query of every request starts with the click time, [userclick],
    which is the clock in decimal, and the identification of the script,
    [script]; the only parameter that can follow is [template-overall]. *)
Theorem request_query_identifies_the_script env pagePath payload followRedirects
    shouldUnlockSimul w req :
  req ∈ requests_of (added_events w
          (fst (call env (makeNsHtmlRequest pagePath payload followRedirects
                            shouldUnlockSimul) w))) ->
  exists rest,
    url_search (req_url req) =
      [("userclick", pretty (Date_now w));
       ("script", scriptName (this w) +:+ " v" +:+ scriptVersion (this w) +:+ " by " +:+
                  scriptAuthor (this w) +:+ " in use by " +:+ currentUser (this w))] ++
      rest /\
    (rest = [] \/ rest = [("template-overall", "none")]).
Proof.
  intros Hsent. apply requests_of_makeNsHtmlRequest in Hsent. subst req.
  rewrite buildRequest_search. eexists. split; [reflexivity|].
  destruct (endsWith pagePath ".cgi"); [left | right]; reflexivity.
Qed.

(** [makeNsHtmlRequest] never writes the store, and [getNsHtmlPage]
    writes no entry other than [lastKnownChk] and [lastKnownLocalid];
    neither changes the identification of the script, the host or the
    clock. *)
Theorem pipeline_writes_only_the_tokens env pagePath payload followRedirects
    shouldUnlockSimul w :
  let raw := fst (call env (makeNsHtmlRequest pagePath payload followRedirects
                              shouldUnlockSimul) w) in
  let page := fst (call env (getNsHtmlPage parseHtml pagePath payload) w) in
  localStorage raw = localStorage w /\
  (forall key, key <> "lastKnownChk" -> key <> "lastKnownLocalid" ->
               localStorage page !! key = localStorage w !! key) /\
  (forall w', w' = raw \/ w' = page ->
     scriptName (this w') = scriptName (this w) /\
     scriptVersion (this w') = scriptVersion (this w) /\
     scriptAuthor (this w') = scriptAuthor (this w) /\
     currentUser (this w') = currentUser (this w) /\
     location_host w' = location_host w /\
     Date_now w' = Date_now w).
Proof.
  cbv zeta. split; [|split].
  - make_cases env w; try destruct shouldUnlockSimul; reflexivity.
  - intros key Hchk Hlocalid. page_exits env w; try reflexivity.
    unfold storeAuth. cbn [fst].
    destruct (doc_chk _), (doc_localid _);
      cbn [localStorage setItem emit handleUnlock set_in_progress];
      rewrite ?lookup_insert_ne by congruence; reflexivity.
  - intros w' [-> | ->].
    + make_cases env w; try destruct shouldUnlockSimul; repeat split.
    + page_exits env w; try (repeat split; fail).
      unfold storeAuth. cbn [fst]. destruct (doc_chk _), (doc_localid _); repeat split.
Qed.

(** What a call of [getNsHtmlPage] that returns tells about the answers
    of the world and about the world it leaves. *)
Lemma returned_page env pagePath payload w w1 body :
  call env (getNsHtmlPage parseHtml pagePath payload) w = (w1, Some (Fulfilled body)) ->
  isHtmlRequestInProgress (this w) = false /\
  user_input env = Some (Fulfilled ()) /\
  (exists response, fetch_result env = Some (Fulfilled response) /\ ok response = true) /\
  text_result env = Some (Fulfilled body) /\
  includes body "Failed security check" = false /\
  includes body "Border Patrol" = false /\
  isHtmlRequestInProgress (this w1) = false /\
  localStorage w1 = localStorage (storeAuth (parseHtml body) w) /\
  detached w1 = detached w.
Proof.
  page_exits env w; intros H; settle H.
  repeat split; try assumption; try reflexivity;
    try (eexists; split; [reflexivity | assumption]);
    unfold storeAuth; destruct (doc_chk _), (doc_localid _); reflexivity.
Qed.

Lemma storeAuth_chk doc w :
  getItem "lastKnownChk" (storeAuth doc w) =
  if doc_chk doc is Some chk then Some chk else getItem "lastKnownChk" w.
Proof.
  unfold storeAuth, getItem. destruct (doc_chk doc), (doc_localid doc);
    cbn [localStorage setItem emit];
    repeat (rewrite lookup_insert_eq || rewrite lookup_insert_ne by discriminate);
    reflexivity.
Qed.

Lemma storeAuth_localid doc w :
  getItem "lastKnownLocalid" (storeAuth doc w) =
  if doc_localid doc is Some localid then Some localid
  else getItem "lastKnownLocalid" w.
Proof.
  unfold storeAuth, getItem. destruct (doc_chk doc), (doc_localid doc);
    cbn [localStorage setItem emit];
    repeat (rewrite lookup_insert_eq || rewrite lookup_insert_ne by discriminate);
    reflexivity.
Qed.

Lemma tokenFields_storage w w' :
  localStorage w' = localStorage w -> tokenFields w' = tokenFields w.
Proof. intros H. unfold tokenFields, getItem. now rewrite H. Qed.

Lemma buildRequest_body_storage pagePath payload followRedirects w w' :
  localStorage w' = localStorage w ->
  req_body (buildRequest pagePath payload followRedirects w') =
  callerFields payload ++ tokenFields w.
Proof. intros H. rewrite buildRequest_body. f_equal. now apply tokenFields_storage. Qed.

Lemma tokenFields_chk w v :
  getItem "lastKnownChk" w = Some v -> v <> "" -> ("chk", v) ∈ tokenFields w.
Proof.
  intros H Hne. unfold tokenFields. rewrite H. destruct v; [congruence|].
  cbn [truthy default]. apply elem_of_app. left. constructor.
Qed.

Lemma tokenFields_localid w v :
  getItem "lastKnownLocalid" w = Some v -> v <> "" -> ("localid", v) ∈ tokenFields w.
Proof.
  intros H Hne. unfold tokenFields. rewrite H. destruct v; [congruence|].
  cbn [truthy default]. apply elem_of_app. right. constructor.
Qed.

End Pipeline.

(** ** The handlers *)

(** What a call of [makeNsHtmlRequest] that returns a response tells
    about the answers of the world and about the world it leaves. *)
Lemma returned_request env pagePath payload followRedirects shouldUnlockSimul w w1 response :
  call env (makeNsHtmlRequest pagePath payload followRedirects shouldUnlockSimul) w =
    (w1, Some (Fulfilled response)) ->
  isHtmlRequestInProgress (this w) = false /\
  user_input env = Some (Fulfilled ()) /\
  fetch_result env = Some (Fulfilled response) /\
  isHtmlRequestInProgress (this w1) = true /\
  localStorage w1 = localStorage w /\
  detached w1 =
    detached w ++ (if shouldUnlockSimul then [ThenUnlock ReadBlob response] else []) /\
  added_events w w1 =
    [EvCheck true; EvUserInputCalled; EvUserInputSettled true; EvLock;
     EvStatusInfo ("Loading: " +:+ pagePath +:+ "...");
     EvFetch (buildRequest pagePath payload followRedirects w)] ++
    (if shouldUnlockSimul then [EvBodyRead ReadBlob] else []).
Proof.
  make_cases env w; intros H; settle H.
  destruct shouldUnlockSimul; repeat split; try assumption;
    try (cbn; now rewrite ?app_nil_r);
    (apply added_events_app; trace_norm; reflexivity).
Qed.

Section HandlerProperties.

Variable parseHtml : string -> Document.
Variable canonicalize : string -> string.
Variable prettify : string -> string.
Variable trim : string -> string.

Local Abbreviation handler := (handle parseHtml canonicalize prettify trim).
Local Abbreviation method := (invoke parseHtml canonicalize prettify trim).

Ltac judge :=
  intros ?; unfold coherent;
  repeat match goal with
         | |- context [if ?b then _ else _] => destruct b
         | |- context [match ?a with tag_add => _ | tag_remove => _ end] => destruct a
         end;
  cbn [returned bubble]; [> (left + right); split; [reflexivity | eexists; reflexivity] ..].

(** Every handler is one call of the pipeline at its page path, followed
    by a synchronous judgement of what came back. *)
Lemma handle_shape (h : Handler) :
  if usesRawResponse h
  then exists payload rest,
         handler h = awaitRequest (endpoint h) (Some payload) rest /\
         forall response, coherent (rest response)
  else exists payload rest,
         handler h = awaitPage parseHtml (endpoint h) (Some payload) rest /\
         forall text, coherent (rest text).
Proof.
  destruct h; cbn [usesRawResponse endpoint handle];
    unfold handleApply, handleJoin, handleResign, handleEndorse, handleUnendorse,
      handleVote, handleMove, handleCreate, handleChangeWFE, handleRequestEmbassy,
      handleCloseEmbassy, handleAbortEmbassy, handleCancelEmbassyClosure, handleEject,
      handleBanject, handleTag, handleEditRO, handleDismissRO, handleEditDelegate,
      handleRenameGovernor, regionScope;
    try destruct (truthy regionName); cbn [fst snd];
    (eexists _, _; split; [reflexivity | judge]).
Qed.

(** The world a handler leaves is the world its call of the pipeline
    leaves, and it settles when that call settles. *)
Lemma call_handle (h : Handler) :
  exists payload,
    if usesRawResponse h
    then exists rest, (forall response, coherent (rest response)) /\
      forall env w,
        call env (handler h) w =
        match call env (makeNsHtmlRequest (endpoint h) (Some payload) true true) w with
        | (w', Some (Fulfilled response)) => (w', Some (Fulfilled (rest response)))
        | (w', Some (Rejected err)) => (w', Some (Rejected err))
        | (w', None) => (w', None)
        end
    else exists rest, (forall text, coherent (rest text)) /\
      forall env w,
        call env (handler h) w =
        match call env (getNsHtmlPage parseHtml (endpoint h) (Some payload)) w with
        | (w', Some (Fulfilled text)) => (w', Some (Fulfilled (rest text)))
        | (w', Some (Rejected err)) => (w', Some (Rejected err))
        | (w', None) => (w', None)
        end.
Proof.
  pose proof (handle_shape h) as Hshape.
  destruct (usesRawResponse h); destruct Hshape as (payload & rest & -> & Hrest);
    exists payload, rest; (split; [exact Hrest|]); intros env w.
  - apply call_awaitRequest.
  - apply call_awaitPage.
Qed.

(** Splits the run of a handler into the run of its call of the
    pipeline, [Hcall], and what the handler makes of it. *)
Ltac handler_run h Hrun :=
  let payload := fresh "payload" in
  let rest := fresh "rest" in
  let Hrest := fresh "Hrest" in
  let Heq := fresh "Heq" in
  let Hraw := fresh "Hraw" in
  destruct (call_handle h) as [payload Hshape];
  destruct (usesRawResponse h) eqn:Hraw;
  destruct Hshape as (rest & Hrest & Heq);
  rewrite Heq in Hrun; clear Heq;
  match type of Hrun with
  | context [call ?env ?f ?w] =>
      destruct (call env f w) as [? [[?|?]|]] eqn:Hcall
  end;
  try discriminate Hrun.

(** A handler that returns has shown exactly one bubble, and the bubble
    agrees with the boolean: [true] comes with a success bubble and
    [false] with a warning. *)
Theorem handlers_report_coherently (h : Handler) env w w' report :
  call env (handler h) w = (w', Some (Fulfilled report)) ->
  (returned report = true <-> exists msg, bubble report = ShownSuccess msg) /\
  (returned report = false <-> exists msg, bubble report = ShownWarn msg).
Proof.
  intros Hrun. handler_run h Hrun; injection Hrun as -> <-;
    match goal with
    | Hr : forall x, coherent (?f x) |- context [?f ?y] =>
        destruct (Hr y) as [[-> [msg ->]] | [-> [msg ->]]]
    end;
    (split; split; intros H; try discriminate H; try reflexivity;
     try (eexists; reflexivity); destruct H as [? H]; discriminate H).
Qed.

(** A handler returns a boolean only when the exchange has gone
    through: the gate was free, the user input resolved and [fetch]
    resolved with a response; for the handlers that go through
    [getNsHtmlPage] the response was ok and its text, which was read,
    had neither failure marker.  In every other case the handler
    throws: [false] never stands for a failure of the pipeline. *)
Theorem handler_returns_only_after_clean_exchange (h : Handler) env w w' report :
  call env (handler h) w = (w', Some (Fulfilled report)) ->
  isHtmlRequestInProgress (this w) = false /\
  user_input env = Some (Fulfilled ()) /\
  exists response,
    fetch_result env = Some (Fulfilled response) /\
    (usesRawResponse h = false ->
     ok response = true /\
     exists body,
       text_result env = Some (Fulfilled body) /\
       includes body "Failed security check" = false /\
       includes body "Border Patrol" = false).
Proof.
  intros Hrun. handler_run h Hrun; injection Hrun as -> <-.
  - apply returned_request in Hcall as (Hfree & Hinput & Hfetch & _).
    repeat split; try assumption. eexists. split; [eassumption | discriminate].
  - apply returned_page in Hcall
      as (Hfree & Hinput & (response & Hfetch & Hok) & Htext & Hauth & Hcaptcha & _).
    repeat split; try assumption. exists response. split; [assumption|].
    intros _. split; [assumption|]. eexists. repeat split; eassumption.
Qed.

Lemma requests_of_awaitPage {A : Type} env pagePath payload (rest : string -> A) w :
  requests_of (added_events w (fst (call env (awaitPage parseHtml pagePath payload rest) w))) =
  if isHtmlRequestInProgress (this w) then []
  else if user_input env is Some (Fulfilled _)
       then [buildRequest pagePath payload true w] else [].
Proof.
  rewrite call_awaitPage,
    <- (proj2 (requests_of_call parseHtml env pagePath payload true true w)).
  now destruct (call env (getNsHtmlPage parseHtml _ _) w) as [? [[?|?]|]].
Qed.

Lemma requests_of_awaitRequest {A : Type} env pagePath payload (rest : Response -> A) w :
  requests_of (added_events w (fst (call env (awaitRequest pagePath payload rest) w))) =
  if isHtmlRequestInProgress (this w) then []
  else if user_input env is Some (Fulfilled _)
       then [buildRequest pagePath payload true w] else [].
Proof.
  rewrite call_awaitRequest,
    <- (proj1 (requests_of_call parseHtml env pagePath payload true true w)).
  now destruct (call env (makeNsHtmlRequest _ _ true true) w) as [? [[?|?]|]].
Qed.

(** The one request in [sent], if there is one. *)
Lemma sent_request (held : bool) (input : option (Settled ())) (built req : Request) :
  req ∈ (if held then []
         else if input is Some (Fulfilled _) then [built] else []) ->
  req = built.
Proof.
  destruct held; [intros H; inversion H|].
  destruct input as [[[]|?]|]; intros H; inversion H; subst;
    [reflexivity | match goal with H' : _ ∈ [] |- _ => inversion H' end].
Qed.

(** A handler called at a held gate. *)
Lemma handle_at_held_gate (h : Handler) env w :
  isHtmlRequestInProgress (this w) = true ->
  call env (handler h) w = (emit (EvCheck false) w, Some (Rejected simultaneityError)).
Proof.
  intros Hheld. destruct (call_handle h) as [payload Hshape].
  destruct (usesRawResponse h); destruct Hshape as (rest & _ & ->).
  - now rewrite (proj1 (call_at_held_gate parseHtml env _ _ true true w Hheld)).
  - now rewrite (proj2 (call_at_held_gate parseHtml env _ (Some payload) true true w Hheld)).
Qed.

(** The requests a handler sends are those of its one call of the
    pipeline. *)
Lemma requests_of_handle (h : Handler) :
  exists payload, forall env w,
    requests_of (added_events w (fst (call env (handler h) w))) =
    if isHtmlRequestInProgress (this w) then []
    else if user_input env is Some (Fulfilled _)
         then [buildRequest (endpoint h) (Some payload) true w] else [].
Proof.
  destruct (call_handle h) as [payload Hshape]. exists payload. intros env w.
  destruct (usesRawResponse h); destruct Hshape as (rest & _ & ->).
  - rewrite <- (proj1 (requests_of_call parseHtml env (endpoint h) (Some payload)
                         true true w)).
    now destruct (call env (makeNsHtmlRequest _ _ true true) w) as [? [[?|?]|]].
  - rewrite <- (proj2 (requests_of_call parseHtml env (endpoint h) (Some payload)
                         true true w)).
    now destruct (call env (getNsHtmlPage parseHtml _ _) w) as [? [[?|?]|]].
Qed.

(** A call sends at most one request, and nothing is sent twice: a
    request of [makeNsHtmlRequest] or [getNsHtmlPage] is the one built
    from the arguments of the call, and is sent only by a call that
    found the gate free and whose user input promise was fulfilled.  A
    handler sends no request at a held gate or when the user input does
    not resolve, and exactly one otherwise, whatever happens to that
    request afterwards. *)
Theorem one_request_per_call (h : Handler) env pagePath payload followRedirects
    shouldUnlockSimul w :
  (let sent := requests_of (added_events w
       (fst (call env (makeNsHtmlRequest pagePath payload followRedirects
                         shouldUnlockSimul) w))) in
   (length sent <= 1)%nat /\
   forall req, req ∈ sent ->
     req = buildRequest pagePath payload followRedirects w /\
     isHtmlRequestInProgress (this w) = false /\
     user_input env = Some (Fulfilled ())) /\
  (let sent := requests_of (added_events w
       (fst (call env (getNsHtmlPage parseHtml pagePath payload) w))) in
   (length sent <= 1)%nat /\
   forall req, req ∈ sent ->
     req = buildRequest pagePath payload true w /\
     isHtmlRequestInProgress (this w) = false /\
     user_input env = Some (Fulfilled ())) /\
  length (requests_of (added_events w (fst (call env (handler h) w)))) =
    (if isHtmlRequestInProgress (this w) then 0
     else if user_input env is Some (Fulfilled _) then 1 else 0)%nat.
Proof.
  split; [|split].
  - cbv zeta.
    rewrite (proj1 (requests_of_call parseHtml env pagePath payload followRedirects
                      shouldUnlockSimul w)).
    destruct (isHtmlRequestInProgress (this w)); [|destruct (user_input env) as [[[]|?]|]];
      (split; [cbn; lia | intros req Hreq; elem_of_cases]).
    repeat split.
  - cbv zeta.
    rewrite (proj2 (requests_of_call parseHtml env pagePath payload true true w)).
    destruct (isHtmlRequestInProgress (this w)); [|destruct (user_input env) as [[[]|?]|]];
      (split; [cbn; lia | intros req Hreq; elem_of_cases]).
    repeat split.
  - destruct (requests_of_handle h) as [fields ->].
    destruct (isHtmlRequestInProgress (this w)); [|destruct (user_input env) as [[[]|?]|]];
      reflexivity.
Qed.

(** Token propagation: after a call of [getNsHtmlPage] has returned a
    page, every request that the caller's next call sends, be it a call
    of [getNsHtmlPage] or of a handler, carries in its body every
    non-empty token that the page's document had; and the next handler,
    once its user input resolves, does send its one request. *)
Theorem tokens_reach_the_next_request (next : Handler) env1 env2 path1 payload1
    path2 payload2 w w1 body :
  call env1 (getNsHtmlPage parseHtml path1 payload1) w = (w1, Some (Fulfilled body)) ->
  (forall req,
      req ∈ requests_of (added_events w1
              (fst (call env2 (getNsHtmlPage parseHtml path2 payload2) w1))) \/
      req ∈ requests_of (added_events w1 (fst (call env2 (handler next) w1))) ->
      (forall chk, doc_chk (parseHtml body) = Some chk -> chk <> "" ->
                   ("chk", chk) ∈ req_body req) /\
      (forall localid, doc_localid (parseHtml body) = Some localid -> localid <> "" ->
                       ("localid", localid) ∈ req_body req)) /\
  (user_input env2 = Some (Fulfilled ()) ->
   length (requests_of (added_events w1 (fst (call env2 (handler next) w1)))) = 1%nat).
Proof.
  intros Hrun.
  destruct (returned_page _ _ _ _ _ _ _ Hrun) as (_ & _ & _ & _ & _ & _ & Hfree & Hstore & _).
  split.
  - intros req Hreq.
    assert (Hbody : exists fields, req_body req = fields ++ tokenFields w1).
    { destruct Hreq as [Hreq | Hreq].
      - rewrite (proj2 (requests_of_call parseHtml env2 path2 payload2 true true w1))
          in Hreq.
        apply sent_request in Hreq as ->. eexists. apply buildRequest_body.
      - destruct (requests_of_handle next) as [fields Hsent]. rewrite Hsent in Hreq.
        apply sent_request in Hreq as ->. eexists. apply buildRequest_body. }
    destruct Hbody as [fields ->].
    split; intros v Hdoc Hne; apply elem_of_app; right.
    + apply tokenFields_chk; [|exact Hne].
      unfold getItem. rewrite Hstore.
      fold (getItem "lastKnownChk" (storeAuth (parseHtml body) w)).
      now rewrite storeAuth_chk, Hdoc.
    + apply tokenFields_localid; [|exact Hne].
      unfold getItem. rewrite Hstore.
      fold (getItem "lastKnownLocalid" (storeAuth (parseHtml body) w)).
      now rewrite storeAuth_localid, Hdoc.
  - intros Hinput. destruct (requests_of_handle next) as [fields ->].
    rewrite Hfree, Hinput. reflexivity.
Qed.

(** Token persistence: a returned page whose document has neither token
    leaves the store as it was.  Every request that a next call of
    [getNsHtmlPage] sends carries the caller's fields followed by the
    token fields of before the page was fetched, and the next handler
    sends, once its user input resolves, one request, whose body is the
    body it would have sent before the page was fetched. *)
Theorem silent_page_keeps_the_tokens (next : Handler) env1 env2 path1 payload1
    path2 payload2 w w1 body :
  call env1 (getNsHtmlPage parseHtml path1 payload1) w = (w1, Some (Fulfilled body)) ->
  doc_chk (parseHtml body) = None ->
  doc_localid (parseHtml body) = None ->
  localStorage w1 = localStorage w /\
  (forall req,
      req ∈ requests_of (added_events w1
              (fst (call env2 (getNsHtmlPage parseHtml path2 payload2) w1))) ->
      req_body req = callerFields payload2 ++ tokenFields w) /\
  req_body <$> requests_of (added_events w1 (fst (call env2 (handler next) w1))) =
    req_body <$> requests_of (added_events w (fst (call env2 (handler next) w))) /\
  (user_input env2 = Some (Fulfilled ()) ->
   length (requests_of (added_events w1 (fst (call env2 (handler next) w1)))) = 1%nat).
Proof.
  intros Hrun Hchk Hlocalid.
  destruct (returned_page _ _ _ _ _ _ _ Hrun)
    as (Hfree0 & _ & _ & _ & _ & _ & Hfree & Hstore & _).
  assert (Hsame : localStorage w1 = localStorage w).
  { rewrite Hstore. unfold storeAuth. now rewrite Hchk, Hlocalid. }
  split; [exact Hsame|]. split; [|split].
  - intros req Hreq.
    rewrite (proj2 (requests_of_call parseHtml env2 path2 payload2 true true w1)) in Hreq.
    apply sent_request in Hreq as ->. now apply buildRequest_body_storage.
  - destruct (requests_of_handle next) as [fields Hsent]. rewrite !Hsent, Hfree0, Hfree.
    destruct (user_input env2) as [[[]|?]|]; try reflexivity.
    cbn [fmap list_fmap]. f_equal.
    rewrite (buildRequest_body_storage _ _ _ w w1 Hsame). symmetry. apply buildRequest_body.
  - intros Hinput. destruct (requests_of_handle next) as [fields ->].
    rewrite Hfree, Hinput. reflexivity.
Qed.

(** After a response that is not ok, [getNsHtmlPage] throws the fetch
    failure with the gate still held, the release being left to the
    continuation on [response.text()]: a call of [getNsHtmlPage] or of
    a handler made right away is rejected with the simultaneity error
    after the failed check alone.  When the text of the response is
    read to its end the continuation frees the gate, and a handler
    called then, once its user input resolves, sends its request. *)
Theorem failed_status_blocks_until_body_is_read (next : Handler) env env2 pagePath
    payload w response :
  isHtmlRequestInProgress (this w) = false ->
  user_input env = Some (Fulfilled ()) ->
  fetch_result env = Some (Fulfilled response) ->
  ok response = false ->
  let (w1, outcome) := call env (getNsHtmlPage parseHtml pagePath payload) w in
  outcome = Some (Rejected (fetchFailedError response)) /\
  isHtmlRequestInProgress (this w1) = true /\
  detached w1 = detached w ++ [ThenUnlock ReadText response] /\
  (forall path2 payload2,
      call env2 (getNsHtmlPage parseHtml path2 payload2) w1 =
      (emit (EvCheck false) w1, Some (Rejected simultaneityError))) /\
  call env2 (handler next) w1 =
    (emit (EvCheck false) w1, Some (Rejected simultaneityError)) /\
  (forall body, text_result env = Some (Fulfilled body) ->
     isHtmlRequestInProgress (this (bodies_consumed w1)) = false /\
     (user_input env2 = Some (Fulfilled ()) ->
      length (requests_of (added_events (bodies_consumed w1)
                (fst (call env2 (handler next) (bodies_consumed w1))))) = 1%nat)).
Proof.
  intros Hfree Hinput Hfetch Hok.
  rewrite call_getNsHtmlPage, call_makeNsHtmlRequest, Hfree, Hinput, Hfetch.
  cbv beta iota zeta. rewrite Hok.
  split; [reflexivity|]. split; [reflexivity|]. split; [reflexivity|]. split; [|split].
  - intros path2 payload2.
    rewrite call_getNsHtmlPage, call_makeNsHtmlRequest. reflexivity.
  - apply handle_at_held_gate. reflexivity.
  - intros body _.
    match goal with
    | |- isHtmlRequestInProgress (this (bodies_consumed ?w1)) = false /\ _ =>
        assert (Hfree1 : isHtmlRequestInProgress (this (bodies_consumed w1)) = false)
    end.
    { apply bodies_consumed_gate. right. cbn. now destruct (detached w). }
    split; [exact Hfree1|]. intros Hinput2.
    destruct (requests_of_handle next) as [fields ->].
    rewrite Hfree1, Hinput2. reflexivity.
Qed.

(** A handler that goes through [getNsHtmlPage] and returns has freed
    the gate and has put the tokens of the page's document into the
    store: whichever handler is called next finds the gate free and
    sends its request. *)
Theorem page_handlers_can_be_chained (h next : Handler) env env2 w w' report :
  usesRawResponse h = false ->
  call env (handler h) w = (w', Some (Fulfilled report)) ->
  user_input env2 = Some (Fulfilled ()) ->
  isHtmlRequestInProgress (this w') = false /\
  (exists body, text_result env = Some (Fulfilled body) /\
                localStorage w' = localStorage (storeAuth (parseHtml body) w)) /\
  length (requests_of (added_events w' (fst (call env2 (handler next) w')))) = 1%nat.
Proof.
  intros Hpage Hrun Hinput2. handler_run h Hrun; [discriminate Hpage|].
  injection Hrun as -> <-.
  apply returned_page in Hcall as (_ & _ & _ & Htext & _ & _ & Hfree & Hstore & _).
  split; [exact Hfree|]. split; [eauto|].
  destruct (requests_of_handle next) as [payload2 ->].
  rewrite Hfree, Hinput2. reflexivity.
Qed.

(** An endorsement or its withdrawal is judged by the URL of the
    response alone: whatever the status of the response, the handler
    returns whether the URL contains [nation=] followed by the
    canonical name.  The text of the response is never read, the token
    store is not updated, and the handler returns with the gate still
    held. *)
Theorem endorsement_is_judged_by_the_url (h : Handler) nationName env w response :
  h = HandleEndorse nationName \/ h = HandleUnendorse nationName ->
  isHtmlRequestInProgress (this w) = false ->
  user_input env = Some (Fulfilled ()) ->
  fetch_result env = Some (Fulfilled response) ->
  let (w', outcome) := call env (handler h) w in
  (exists report,
      outcome = Some (Fulfilled report) /\
      returned report = includes (url response) ("nation=" +:+ canonicalize nationName)) /\
  localStorage w' = localStorage w /\
  (EvBodyRead ReadText ∉ added_events w w') /\
  (forall doc, EvStoreAuth doc ∉ added_events w w') /\
  isHtmlRequestInProgress (this w') = true.
Proof.
  intros Hh Hfree Hinput Hfetch.
  assert (Hrun : forall rest : Response -> Reported,
    call env (awaitRequest "cgi-bin/endorse.cgi"
                (Some [("nation", PStr nationName);
                       ("action", PStr (if h is HandleEndorse _ then "endorse"
                                        else "unendorse"))]) rest) w =
    (then_unlock ReadBlob response
       (emit (EvFetch (buildRequest "cgi-bin/endorse.cgi"
                         (Some [("nation", PStr nationName);
                                ("action", PStr (if h is HandleEndorse _ then "endorse"
                                                 else "unendorse"))]) true w))
          (statusBubble_info "Loading: cgi-bin/endorse.cgi..."
             (handleLock (emit (EvUserInputSettled true)
                            (emit EvUserInputCalled (emit (EvCheck true) w)))))),
     Some (Fulfilled (rest response)))).
  { intros rest. rewrite call_awaitRequest, call_makeNsHtmlRequest, Hfree, Hinput, Hfetch.
    reflexivity. }
  destruct Hh as [-> | ->]; cbn [handle]; unfold handleEndorse, handleUnendorse;
    rewrite Hrun; (split; [eexists; split; [reflexivity|];
                           cbv zeta; now destruct (includes _ _) |]);
    (split; [reflexivity|]);
    (erewrite added_events_app; [|trace_norm; reflexivity]);
    (split; [intros Hin; elem_of_cases|]);
    (split; [intros doc Hin; elem_of_cases | reflexivity]).
Qed.

(** A handler that returns after [makeNsHtmlRequest] leaves the gate to
    the continuation on [response.blob()]: a handler called before the
    body has been read is rejected with the simultaneity error, and one
    called after it sends its request. *)
Theorem raw_handlers_block_until_body_is_read (h next : Handler) env env2 w w' report :
  usesRawResponse h = true ->
  call env (handler h) w = (w', Some (Fulfilled report)) ->
  call env2 (handler next) w' =
    (emit (EvCheck false) w', Some (Rejected simultaneityError)) /\
  isHtmlRequestInProgress (this (bodies_consumed w')) = false /\
  (user_input env2 = Some (Fulfilled ()) ->
   length (requests_of (added_events (bodies_consumed w')
             (fst (call env2 (handler next) (bodies_consumed w'))))) = 1%nat).
Proof.
  intros Hraw' Hrun. handler_run h Hrun; [|discriminate Hraw'].
  injection Hrun as -> <-.
  apply returned_request in Hcall as (_ & _ & _ & Hheld & _ & Hdetached & _).
  assert (Hfree : isHtmlRequestInProgress (this (bodies_consumed w')) = false).
  { apply bodies_consumed_gate. right. rewrite Hdetached. now destruct (detached w). }
  split; [now apply handle_at_held_gate|]. split; [exact Hfree|].
  intros Hinput2. destruct (requests_of_handle next) as [payload2 ->].
  rewrite Hfree, Hinput2. reflexivity.
Qed.

Lemma endpoint_suffix (m : Method) :
  endsWith (endpoint (dispatch m)) ".cgi" = usesRawResponse (dispatch m).
Proof. destruct m; try destruct council; reflexivity. Qed.

(** Each of the seventeen methods of [NSScript] that hand over to a
    handler of region.ts or worldAssembly.ts posts to the page path of
    its handler and follows redirects.  Among them the two endorsement
    methods, whose path ends in [.cgi], are the only ones that do not
    ask for [template-overall=none]; [joinWorldAssembly], which posts
    to [cgi-bin/], does.  ([login] and [restoreNation] hand over to
    handlers of nation.ts and are not among the methods of [Method].) *)
Theorem methods_endpoints (m : Method) env w req :
  req ∈ requests_of (added_events w (fst (call env (method m) w))) ->
  url_ref (req_url req) = endpoint (dispatch m) /\
  req_redirect req = follow /\
  (("template-overall", "none") ∈ url_search (req_url req) <->
   usesRawResponse (dispatch m) = false).
Proof.
  unfold invoke. destruct (requests_of_handle (dispatch m)) as [payload ->].
  intros Hsent. apply sent_request in Hsent as ->.
  split; [reflexivity|]. split; [reflexivity|].
  rewrite buildRequest_search, endpoint_suffix.
  destruct (usesRawResponse (dispatch m)); cbn [app]; split.
  - intros H. elem_of_cases.
  - discriminate.
  - reflexivity.
  - intros _. repeat constructor.
Qed.

(** [moveToRegion] sends the region name and [move_region=1], then a
    [password] field exactly when a non-empty password was given, then
    the tokens of the store. *)
Theorem move_request_body regionName password env w req :
  req ∈ requests_of (added_events w
          (fst (call env (method (moveToRegion regionName password)) w))) ->
  req_body req =
    [("region_name", regionName); ("move_region", "1")] ++
    (if password is Some (String c s) then [("password", String c s)] else []) ++
    tokenFields w.
Proof.
  unfold invoke. cbn [dispatch handle]. unfold handleMove. cbv zeta.
  rewrite requests_of_awaitPage. intros Hsent. apply sent_request in Hsent as ->.
  rewrite buildRequest_body. destruct password as [[|c s]|]; reflexivity.
Qed.

(** [createRegion] sends the canonical region name, the factbook entry
    and the two switches as [1] or [0], both [0] when they are left
    out; [pw=1] and [rpassword] are sent exactly when a non-empty
    password was given. *)
Theorem create_request_body regionName wfe password frontier executiveDelegate env w req :
  req ∈ requests_of (added_events w
          (fst (call env (method (createRegion regionName wfe password frontier
                                    executiveDelegate)) w))) ->
  req_body req =
    [("region_name", canonicalize regionName);
     ("desc", wfe);
     ("create_region", "1");
     ("is_frontier", if frontier is Some true then "1" else "0");
     ("delegate_control", if executiveDelegate is Some true then "1" else "0")] ++
    (if password is Some (String c s)
     then [("pw", "1"); ("rpassword", String c s)] else []) ++
    tokenFields w.
Proof.
  unfold invoke. cbn [dispatch handle]. unfold handleCreate. cbv zeta.
  rewrite requests_of_awaitPage. intros Hsent. apply sent_request in Hsent as ->.
  rewrite buildRequest_body.
  destruct password as [[|c s]|], frontier as [[]|], executiveDelegate as [[]|];
    reflexivity.
Qed.

(** [addTag] and [removeTag] send the tag under [add_tag] and
    [remove_tag]; on the marker they report [Added tag] and [Removed
    tag], and otherwise that they failed to [add] or to [remove] it. *)
Theorem tag_reports (m : Method) action tag env w w' report :
  (m = addTag tag /\ action = tag_add) \/ (m = removeTag tag /\ action = tag_remove) ->
  call env (method m) w = (w', Some (Fulfilled report)) ->
  requests_of (added_events w w') =
    [buildRequest "page=region_control"
       (Some [(tag_action_string action +:+ "_tag", PStr tag);
              ("updatetagsbutton", PStr "1")]) true w] /\
  exists text,
    text_result env = Some (Fulfilled text) /\
    report =
      if includes text "Region Tags updated!"
      then {| bubble := ShownSuccess
                (match action with tag_add => "Added" | tag_remove => "Removed" end
                 +:+ " tag: " +:+ prettify tag);
              returned := true |}
      else {| bubble := ShownWarn ("Failed to " +:+ tag_action_string action +:+
                                   " tag: " +:+ prettify tag);
              returned := false |}.
Proof.
  intros Hm Hrun.
  assert (Hrun' : call env (handler (HandleTag action tag)) w =
                  (w', Some (Fulfilled report))).
  { destruct Hm as [[-> ->] | [-> ->]]; exact Hrun. }
  clear Hrun Hm. cbn [handle] in Hrun'. unfold handleTag in Hrun'. cbv zeta in Hrun'.
  pose proof (requests_of_awaitPage env "page=region_control"
    (Some [(tag_action_string action +:+ "_tag", PStr tag);
           ("updatetagsbutton", PStr "1")])
    (fun text =>
       if includes text "Region Tags updated!"
       then {| bubble := ShownSuccess
                 (match action with tag_add => "Add" | tag_remove => "Remov" end
                  +:+ "ed tag: " +:+ prettify tag);
               returned := true |}
       else {| bubble := ShownWarn
                 ("Failed to " +:+
                  toLowerCase
                    (if String.eqb
                          match action with tag_add => "Add" | tag_remove => "Remov" end
                          "Remov"
                     then "Remove"
                     else match action with tag_add => "Add" | tag_remove => "Remov" end)
                  +:+ " tag: " +:+ prettify tag);
               returned := false |}) w) as Hreq.
  rewrite Hrun' in Hreq. cbn [fst] in Hreq.
  rewrite call_awaitPage in Hrun'.
  destruct (call env (getNsHtmlPage parseHtml _ _) w) as [w1 [[text|err]|]] eqn:Hcall;
    try discriminate Hrun'.
  injection Hrun' as -> <-.
  apply returned_page in Hcall as (Hfree & Hinput & _ & Htext & _).
  rewrite Hfree, Hinput in Hreq. split; [exact Hreq|].
  exists text. split; [exact Htext|].
  destruct action, (includes text "Region Tags updated!"); reflexivity.
Qed.

(** [reAuthenticate] fetches the page of a region: when it returns it
    has shown [Re-authenticated], the gate is free and the store holds
    the tokens of that page's document, keeping the value it had for a
    token the document lacks. *)
Theorem reAuthenticate_refreshes_the_tokens env w w' shown :
  call env (reAuthenticate parseHtml) w = (w', Some (Fulfilled shown)) ->
  shown = ShownSuccess "Re-authenticated" /\
  requests_of (added_events w w') =
    [buildRequest "page=display_region" (Some [("region", PStr "rwby")]) true w] /\
  isHtmlRequestInProgress (this w') = false /\
  exists body,
    text_result env = Some (Fulfilled body) /\
    getItem "lastKnownChk" w' =
      (if doc_chk (parseHtml body) is Some chk then Some chk
       else getItem "lastKnownChk" w) /\
    getItem "lastKnownLocalid" w' =
      (if doc_localid (parseHtml body) is Some localid then Some localid
       else getItem "lastKnownLocalid" w).
Proof.
  intros Hrun. unfold reAuthenticate in Hrun.
  pose proof (requests_of_awaitPage env "page=display_region"
                (Some [("region", PStr "rwby")])
                (fun _ => ShownSuccess "Re-authenticated") w) as Hreq.
  rewrite Hrun in Hreq. cbn [fst] in Hreq.
  rewrite call_awaitPage in Hrun.
  destruct (call env (getNsHtmlPage parseHtml _ _) w) as [w1 [[body|err]|]] eqn:Hcall;
    try discriminate Hrun.
  injection Hrun as -> <-.
  apply returned_page in Hcall
    as (Hfree & Hinput & _ & Htext & _ & _ & Hfree' & Hstore & _).
  rewrite Hfree, Hinput in Hreq.
  split; [reflexivity|]. split; [exact Hreq|]. split; [exact Hfree'|].
  exists body. split; [exact Htext|].
  unfold getItem at 1 3. rewrite Hstore.
  split; [apply storeAuth_chk | apply storeAuth_localid].
Qed.

(** *** The handlers of regional officers *)

Lemma callerFields_app (p q : Payload) :
  callerFields (Some (p ++ q)) = callerFields (Some p) ++ callerFields (Some q).
Proof. unfold callerFields. cbn [default]. apply fmap_app. Qed.

Lemma callerFields_authorityField authority letter (p : Payload) :
  callerFields (Some (authorityField authority letter p)) =
  callerFields (Some p) ++
  (if includes authority letter then [("authority_" +:+ letter, "on")] else []).
Proof.
  unfold authorityField. destruct (includes authority letter).
  - now rewrite callerFields_app.
  - now rewrite app_nil_r.
Qed.

Lemma regionScope_cases (regionName : option string) page (p : Payload) :
  regionScope regionName (page, p) =
  if regionName is Some (String c s)
  then (page +:+ "/region=" +:+ String c s, p ++ [("region", PStr (String c s))])
  else (page, p).
Proof. now destruct regionName as [[|c s]|]. Qed.

Lemma elem_of_switch (b : bool) (x y : string * string) :
  x ∈ (if b then [y] else []) <-> b = true /\ x = y.
Proof.
  destruct b; split.
  - intros H. elem_of_cases. now split.
  - intros [_ ->]. constructor.
  - intros H. inversion H.
  - intros [H _]. discriminate H.
Qed.

Lemma tokenFields_keys (w : World) key value :
  (key, value) ∈ tokenFields w -> key = "chk" \/ key = "localid".
Proof.
  unfold tokenFields. intros H. apply elem_of_app in H as [H | H];
    [destruct (truthy (getItem "lastKnownChk" w))
    |destruct (truthy (getItem "lastKnownLocalid" w))];
    elem_of_cases; auto.
Qed.

Ltac find_disjunct :=
  first [ solve [split; [assumption | reflexivity]]
        | solve [repeat constructor]
        | left; find_disjunct
        | right; find_disjunct ].

Ltac officer_request Hsent :=
  cbn [handle] in Hsent;
  unfold handleEditRO, handleDismissRO, handleEditDelegate, handleRenameGovernor in Hsent;
  cbv zeta in Hsent;
  match type of Hsent with
  | context [regionScope ?r _] =>
      rewrite (regionScope_cases r) in Hsent; destruct r as [[|? ?]|]
  end;
  rewrite requests_of_awaitPage in Hsent; apply sent_request in Hsent as ->.

(** [handleEditRO] sends [authority_<letter>=on] for exactly those of
    the letters A, B, C, E, P and S that occur in its [authority]
    argument; [handleEditDelegate] does so for the letters A, B, C, E, P
    and X, and always sends [authority_W=on].  The request has no other
    field whose name begins with [authority_], whatever its value. *)
Theorem officer_authority_fields (h : Handler) authority allowed always env w req :
  (exists nationName officeName regionName,
      h = HandleEditRO nationName officeName authority regionName /\
      allowed = ["A"; "B"; "C"; "E"; "P"; "S"] /\ always = []) \/
  (exists regionName,
      h = HandleEditDelegate authority regionName /\
      allowed = ["A"; "B"; "C"; "E"; "P"; "X"] /\ always = ["W"]) ->
  req ∈ requests_of (added_events w (fst (call env (handler h) w))) ->
  forall letter value,
    ("authority_" +:+ letter, value) ∈ req_body req <->
    value = "on" /\
    (letter ∈ always \/ (letter ∈ allowed /\ includes authority letter = true)).
Proof.
  intros [(nationName & officeName & regionName & -> & -> & ->)
         | (regionName & -> & -> & ->)] Hsent letter value;
    officer_request Hsent;
    rewrite buildRequest_body, ?callerFields_app, !callerFields_authorityField;
    unfold callerFields; cbn [default fmap list_fmap fst snd String_of];
    rewrite !elem_of_app, !elem_of_switch;
    (split;
     [ intros H;
       repeat first
         [ apply (proj1 (elem_of_nil _)) in H; contradiction
         | apply (proj1 (elem_of_cons _ _ _)) in H
         | match type of H with
           | _ \/ _ => destruct H as [H | H]
           | _ /\ _ => let Hb := fresh "Hb" in destruct H as [Hb H]
           end ];
       try (apply tokenFields_keys in H as [H | H]; cbv in H; discriminate H);
       cbv in H; try discriminate H;
       injection H as -> ->;
       (split; [reflexivity|]);
       first [ solve [left; repeat constructor]
             | right; split; [repeat constructor | assumption] ]
     | intros [-> [H | [H Hin]]];
       repeat first
         [ apply (proj1 (elem_of_nil _)) in H; contradiction
         | apply (proj1 (elem_of_cons _ _ _)) in H as [H | H] ];
       subst letter;
       find_disjunct ]).
Qed.

Lemma scoped_path_suffix (c : ascii) (s : string) :
  endsWith ("page=region_control" +:+ "/region=" +:+ String c s) ".cgi" =
  endsWith (String c s) ".cgi".
Proof. reflexivity. Qed.

(** The handlers of regional officers post to [page=region_control], or
    to [page=region_control/region=<name>] when a non-empty region name
    is given, and send a [region] field in exactly that case.  Since a
    path is taken for a [.cgi] endpoint by its suffix, a region name
    that ends in [.cgi] makes the request lose [template-overall=none]. *)
Theorem officer_region_scope (h : Handler) regionName env w req :
  scopeOf h = Some regionName ->
  req ∈ requests_of (added_events w (fst (call env (handler h) w))) ->
  url_ref (req_url req) =
    (if regionName is Some (String c s)
     then "page=region_control/region=" +:+ String c s
     else "page=region_control") /\
  (forall v, ("region", v) ∈ req_body req <-> regionName = Some v /\ v <> "") /\
  (("template-overall", "none") ∈ url_search (req_url req) <->
   endsWith (default "" regionName) ".cgi" = false).
Proof.
  intros Hscope Hsent.
  destruct h; try discriminate Hscope; injection Hscope as ->;
    officer_request Hsent.
  all: split; [reflexivity|]; split.
  all: first
    [ (* the region field *)
      intros v;
      rewrite buildRequest_body, ?callerFields_app, ?callerFields_authorityField;
      unfold callerFields; simpl (default _ _); cbn [fmap list_fmap fst snd String_of];
      rewrite !elem_of_app, ?elem_of_switch; split;
      [ intros H;
        repeat first
          [ apply (proj1 (elem_of_nil _)) in H; contradiction
          | apply (proj1 (elem_of_cons _ _ _)) in H
          | match type of H with
            | _ \/ _ => destruct H as [H | H]
            | _ /\ _ => let Hb := fresh "Hb" in destruct H as [Hb H]
            end ];
        try (apply tokenFields_keys in H as [H | H]; cbv in H; discriminate H);
        cbv in H; try discriminate H;
        injection H as ->; (split; [reflexivity | discriminate])
      | intros [H Hne]; first [discriminate H | injection H as <-];
        first [congruence | find_disjunct] ]
    | (* the template parameter *)
      rewrite buildRequest_search;
      first [ rewrite scoped_path_suffix; simpl (default _ _);
              destruct (endsWith (String _ _) ".cgi")
            | change (endsWith "page=region_control" ".cgi") with false;
              simpl (default _ _); change (endsWith "" ".cgi") with false ];
      cbn [app]; split; intros H; try discriminate H; try reflexivity;
      try (elem_of_cases; fail); repeat constructor ].
Qed.

End HandlerProperties.

(** ** The further properties on sample calls *)

Lemma one_request_per_call_witness :
  (moveRequest ∈ requests_of (added_events idleWorld (fst (moveCall networkDown idleWorld))) /\
   isHtmlRequestInProgress (this idleWorld) = false /\
   user_input networkDown = Some (Fulfilled ())) /\
  (length (requests_of (added_events busyWorld
             (fst (movePage (answers response200 freshPage) busyWorld)))) <= 1)%nat /\
  length (requests_of (added_events idleWorld
            (fst (call networkDown (sampleHandle (HandleMove "rwby" None)) idleWorld)))) =
    1%nat /\
  length (requests_of (added_events idleWorld
            (fst (call inputRefused (sampleHandle (HandleMove "rwby" None)) idleWorld)))) =
    0%nat.
Proof.
  assert (Hsent : moveRequest ∈ requests_of (added_events idleWorld
                    (fst (moveCall networkDown idleWorld)))).
  { vm_compute. constructor. }
  split; [|split; [|split]].
  - split; [exact Hsent|].
    exact (proj2 (proj2 (proj1 (one_request_per_call sampleParseHtml sampleCanonicalize
                    samplePrettify sampleTrim (HandleMove "rwby" None) networkDown
                    "page=change_region" movePayload true true idleWorld))
                    moveRequest Hsent)).
  - exact (proj1 (proj1 (proj2 (one_request_per_call sampleParseHtml sampleCanonicalize
                    samplePrettify sampleTrim (HandleMove "rwby" None)
                    (answers response200 freshPage)
                    "page=change_region" movePayload true true busyWorld)))).
  - exact (proj2 (proj2 (one_request_per_call sampleParseHtml sampleCanonicalize
                    samplePrettify sampleTrim (HandleMove "rwby" None) networkDown
                    "page=change_region" movePayload true true idleWorld))).
  - exact (proj2 (proj2 (one_request_per_call sampleParseHtml sampleCanonicalize
                    samplePrettify sampleTrim (HandleMove "rwby" None) inputRefused
                    "page=change_region" movePayload true true idleWorld))).
Defined.

Lemma held_gate_rejects_at_once_witness :
  isHtmlRequestInProgress (this busyWorld) = true /\
  movePage (answers response200 freshPage) busyWorld =
    (emit (EvCheck false) busyWorld, Some (Rejected simultaneityError)).
Proof.
  split; [reflexivity|].
  exact (proj2 (held_gate_rejects_at_once sampleParseHtml (answers response200 freshPage)
                  "page=change_region" movePayload true true busyWorld eq_refl)).
Defined.

Lemma rejected_user_input_stops_the_call_witness :
  (isHtmlRequestInProgress (this idleWorld) = false /\
   user_input inputRefused =
     Some (Rejected {| err_class := OtherCls "AbortError"; err_message := "cancelled" |})) /\
  snd (movePage inputRefused idleWorld) =
    Some (Rejected {| err_class := OtherCls "AbortError"; err_message := "cancelled" |}) /\
  localStorage (fst (movePage inputRefused idleWorld)) = localStorage idleWorld.
Proof.
  split; [split; reflexivity|].
  pose proof (rejected_user_input_stops_the_call sampleParseHtml inputRefused
                "page=change_region" movePayload idleWorld _ eq_refl eq_refl) as H.
  unfold movePage. destruct (call inputRefused _ idleWorld) as [w' outcome].
  destruct H as (Hout & _ & _ & Hstore & _). split; assumption.
Defined.

Lemma rejected_fetch_unlocks_and_rethrows_witness :
  (isHtmlRequestInProgress (this idleWorld) = false /\
   user_input networkDown = Some (Fulfilled ()) /\
   fetch_result networkDown =
     Some (Rejected {| err_class := TypeErrorCls; err_message := "Failed to fetch" |})) /\
  snd (movePage networkDown idleWorld) =
    Some (Rejected {| err_class := TypeErrorCls; err_message := "Failed to fetch" |}) /\
  isHtmlRequestInProgress (this (fst (movePage networkDown idleWorld))) = false.
Proof.
  split; [repeat split|].
  pose proof (rejected_fetch_unlocks_and_rethrows sampleParseHtml networkDown
                "page=change_region" movePayload idleWorld _ eq_refl eq_refl eq_refl) as H.
  unfold movePage. destruct (call networkDown _ idleWorld) as [w' outcome].
  destruct H as (Hout & _ & Hfree & _). split; assumption.
Defined.

Lemma request_transport_settings_witness :
  moveRequest ∈ requests_of (added_events idleWorld
                  (fst (moveCall (answers response200 "") idleWorld))) /\
  req_method moveRequest = "POST" /\
  req_credentials moveRequest = "include" /\
  req_redirect moveRequest = follow /\
  url_ref (req_url moveRequest) = "page=change_region" /\
  url_base (req_url moveRequest) = "https://www.nationstates.net/".
Proof.
  assert (Hsent : moveRequest ∈ requests_of (added_events idleWorld
                    (fst (moveCall (answers response200 "") idleWorld)))).
  { vm_compute. constructor. }
  split; [exact Hsent|].
  exact (request_transport_settings sampleParseHtml (answers response200 "")
           "page=change_region" movePayload true true idleWorld moveRequest
           (or_introl Hsent)).
Defined.

Lemma request_query_identifies_the_script_witness :
  moveRequest ∈ requests_of (added_events idleWorld
                  (fst (moveCall (answers response200 "") idleWorld))) /\
  exists rest,
    url_search (req_url moveRequest) =
      [("userclick", "1700"); ("script", "demo v1.0 by Ann in use by Bob")] ++ rest /\
    (rest = [] \/ rest = [("template-overall", "none")]).
Proof.
  assert (Hsent : moveRequest ∈ requests_of (added_events idleWorld
                    (fst (moveCall (answers response200 "") idleWorld)))).
  { vm_compute. constructor. }
  split; [exact Hsent|].
  exact (request_query_identifies_the_script (answers response200 "")
           "page=change_region" movePayload true true idleWorld moveRequest Hsent).
Defined.

Lemma pipeline_writes_only_the_tokens_witness :
  localStorage (fst (moveCall (answers response200 "") idleWorld)) =
    localStorage idleWorld /\
  localStorage (fst (movePage (answers response200 freshPage)
                       (setItem "theme" "dark" idleWorld))) !! "theme" = Some "dark".
Proof.
  split.
  - exact (proj1 (pipeline_writes_only_the_tokens sampleParseHtml (answers response200 "")
                    "page=change_region" movePayload true true idleWorld)).
  - unfold movePage.
    rewrite (proj1 (proj2 (pipeline_writes_only_the_tokens sampleParseHtml
                             (answers response200 freshPage) "page=change_region"
                             movePayload true true (setItem "theme" "dark" idleWorld)))
               "theme") by discriminate.
    vm_compute. reflexivity.
Defined.

Lemma tokens_reach_the_next_request_witness :
  movePage (answers response200 freshPage) idleWorld =
    (fst (movePage (answers response200 freshPage) idleWorld),
     Some (Fulfilled freshPage)) /\
  (exists req,
      req ∈ requests_of
              (added_events (fst (movePage (answers response200 freshPage) idleWorld))
                 (fst (movePage (answers response200 silentPage)
                         (fst (movePage (answers response200 freshPage) idleWorld))))) /\
      ("chk", "c2") ∈ req_body req /\
      ("localid", "l2") ∈ req_body req) /\
  length (requests_of
            (added_events (fst (movePage (answers response200 freshPage) idleWorld))
               (fst (call (answers response200 silentPage)
                       (sampleHandle (HandleMove "rwby" None))
                       (fst (movePage (answers response200 freshPage) idleWorld)))))) =
    1%nat.
Proof.
  assert (Hrun : movePage (answers response200 freshPage) idleWorld =
     (fst (movePage (answers response200 freshPage) idleWorld),
      Some (Fulfilled freshPage))).
  { vm_compute. reflexivity. }
  split; [exact Hrun|].
  destruct (tokens_reach_the_next_request sampleParseHtml sampleCanonicalize
              samplePrettify sampleTrim (HandleMove "rwby" None)
              (answers response200 freshPage) (answers response200 silentPage)
              "page=change_region" movePayload "page=change_region" movePayload
              idleWorld _ freshPage Hrun)
    as [Htokens Hone].
  split; [|exact (Hone eq_refl)].
  exists (buildRequest "page=change_region" movePayload true
            (fst (movePage (answers response200 freshPage) idleWorld))).
  assert (Hsent : buildRequest "page=change_region" movePayload true
                    (fst (movePage (answers response200 freshPage) idleWorld)) ∈
            requests_of
              (added_events (fst (movePage (answers response200 freshPage) idleWorld))
                 (fst (movePage (answers response200 silentPage)
                         (fst (movePage (answers response200 freshPage) idleWorld)))))).
  { vm_compute. constructor. }
  split; [exact Hsent|].
  destruct (Htokens _ (or_introl Hsent)) as [Hchk Hlocalid]. split.
  - apply Hchk; [vm_compute; reflexivity | discriminate].
  - apply Hlocalid; [vm_compute; reflexivity | discriminate].
Defined.

Lemma silent_page_keeps_the_tokens_witness :
  (movePage (answers response200 silentPage) idleWorld =
     (fst (movePage (answers response200 silentPage) idleWorld),
      Some (Fulfilled silentPage)) /\
   doc_chk (sampleParseHtml silentPage) = None /\
   doc_localid (sampleParseHtml silentPage) = None) /\
  localStorage (fst (movePage (answers response200 silentPage) idleWorld)) =
    localStorage idleWorld /\
  length (requests_of
            (added_events (fst (movePage (answers response200 silentPage) idleWorld))
               (fst (call (answers response200 silentPage)
                       (sampleHandle (HandleMove "rwby" None))
                       (fst (movePage (answers response200 silentPage) idleWorld)))))) =
    1%nat.
Proof.
  assert (Hrun : movePage (answers response200 silentPage) idleWorld =
     (fst (movePage (answers response200 silentPage) idleWorld),
      Some (Fulfilled silentPage))).
  { vm_compute. reflexivity. }
  split; [split; [exact Hrun | split; vm_compute; reflexivity]|].
  destruct (silent_page_keeps_the_tokens sampleParseHtml sampleCanonicalize
              samplePrettify sampleTrim (HandleMove "rwby" None)
              (answers response200 silentPage) (answers response200 silentPage)
              "page=change_region" movePayload "page=change_region" movePayload
              idleWorld _ silentPage Hrun)
    as (Hstore & _ & _ & Hone); [vm_compute; reflexivity | vm_compute; reflexivity |].
  split; [exact Hstore | exact (Hone eq_refl)].
Defined.

Lemma failed_status_blocks_until_body_is_read_witness :
  (isHtmlRequestInProgress (this idleWorld) = false /\ ok response500 = false) /\
  snd (movePage (answers response200 freshPage)
         (fst (movePage (answers response500 "") idleWorld))) =
    Some (Rejected simultaneityError) /\
  length (requests_of
            (added_events (bodies_consumed (fst (movePage (answers response500 "") idleWorld)))
               (fst (call (answers response200 freshPage)
                       (sampleHandle (HandleMove "rwby" None))
                       (bodies_consumed
                          (fst (movePage (answers response500 "") idleWorld))))))) =
    1%nat.
Proof.
  split; [split; reflexivity|].
  pose proof (failed_status_blocks_until_body_is_read sampleParseHtml sampleCanonicalize
                samplePrettify sampleTrim (HandleMove "rwby" None)
                (answers response500 "") (answers response200 freshPage)
                "page=change_region" movePayload idleWorld
                response500 eq_refl eq_refl eq_refl eq_refl) as H.
  unfold movePage. destruct (call (answers response500 "") _ idleWorld) as [w1 o].
  destruct H as (_ & _ & _ & Hblocked & _ & Hafter). cbn [fst]. split.
  - now rewrite Hblocked.
  - exact (proj2 (Hafter "" eq_refl) eq_refl).
Defined.

Lemma handlers_report_coherently_witness :
  call (answers response200 freshPage) (sampleHandle (HandleMove "rwby" None)) idleWorld =
    (fst (movePage (answers response200 freshPage) idleWorld),
     Some (Fulfilled {| bubble := ShownSuccess "Moved to region: rwby";
                        returned := true |})) /\
  (returned {| bubble := ShownSuccess "Moved to region: rwby"; returned := true |} = false <->
   exists msg, ShownSuccess "Moved to region: rwby" = ShownWarn msg).
Proof.
  assert (Hrun : call (answers response200 freshPage) (sampleHandle (HandleMove "rwby" None))
                   idleWorld =
    (fst (movePage (answers response200 freshPage) idleWorld),
     Some (Fulfilled {| bubble := ShownSuccess "Moved to region: rwby";
                        returned := true |}))).
  { vm_compute. reflexivity. }
  split; [exact Hrun|].
  exact (proj2 (handlers_report_coherently sampleParseHtml sampleCanonicalize
                  samplePrettify sampleTrim (HandleMove "rwby" None) _ _ _ _ Hrun)).
Defined.

Lemma handler_returns_only_after_clean_exchange_witness :
  call (answers response200 silentPage) (sampleHandle (HandleMove "rwby" None)) idleWorld =
    (fst (movePage (answers response200 silentPage) idleWorld),
     Some (Fulfilled {| bubble := ShownWarn "Failed to move to region: rwby";
                        returned := false |})) /\
  exists response,
    fetch_result (answers response200 silentPage) = Some (Fulfilled response) /\
    ok response = true.
Proof.
  assert (Hrun : call (answers response200 silentPage) (sampleHandle (HandleMove "rwby" None))
                   idleWorld =
    (fst (movePage (answers response200 silentPage) idleWorld),
     Some (Fulfilled {| bubble := ShownWarn "Failed to move to region: rwby";
                        returned := false |}))).
  { vm_compute. reflexivity. }
  split; [exact Hrun|].
  destruct (handler_returns_only_after_clean_exchange sampleParseHtml sampleCanonicalize
              samplePrettify sampleTrim (HandleMove "rwby" None) _ _ _ _ Hrun)
    as (_ & _ & response & Hfetch & Hclean).
  exists response. split; [exact Hfetch|]. apply Hclean. reflexivity.
Defined.

Lemma page_handlers_can_be_chained_witness :
  (usesRawResponse (HandleMove "rwby" None) = false /\
   call (answers response200 freshPage) (sampleHandle (HandleMove "rwby" None)) idleWorld =
     (fst (movePage (answers response200 freshPage) idleWorld),
      Some (Fulfilled {| bubble := ShownSuccess "Moved to region: rwby";
                         returned := true |}))) /\
  length (requests_of
            (added_events (fst (movePage (answers response200 freshPage) idleWorld))
               (fst (call (answers endorsedResponse "")
                       (sampleHandle (HandleEndorse "Testlandia"))
                       (fst (movePage (answers response200 freshPage) idleWorld)))))) =
    1%nat.
Proof.
  assert (Hrun : call (answers response200 freshPage) (sampleHandle (HandleMove "rwby" None))
                   idleWorld =
    (fst (movePage (answers response200 freshPage) idleWorld),
     Some (Fulfilled {| bubble := ShownSuccess "Moved to region: rwby";
                        returned := true |}))).
  { vm_compute. reflexivity. }
  split; [split; [reflexivity | exact Hrun]|].
  exact (proj2 (proj2 (page_handlers_can_be_chained sampleParseHtml sampleCanonicalize
                         samplePrettify sampleTrim (HandleMove "rwby" None)
                         (HandleEndorse "Testlandia") _
                         (answers endorsedResponse "") _ _ _ eq_refl Hrun eq_refl))).
Defined.

Lemma endorsement_is_judged_by_the_url_witness :
  (isHtmlRequestInProgress (this idleWorld) = false /\
   ok endorsedResponse500 = false) /\
  exists report,
    snd (call (answers endorsedResponse500 "") (sampleHandle (HandleEndorse "Testlandia"))
           idleWorld) = Some (Fulfilled report) /\
    returned report = true.
Proof.
  split; [split; reflexivity|].
  pose proof (endorsement_is_judged_by_the_url sampleParseHtml sampleCanonicalize
                samplePrettify sampleTrim (HandleEndorse "Testlandia") "Testlandia"
                (answers endorsedResponse500 "") idleWorld endorsedResponse500
                (or_introl eq_refl) eq_refl eq_refl eq_refl) as H.
  unfold sampleHandle.
  destruct (call (answers endorsedResponse500 "") _ idleWorld) as [w' outcome].
  destruct H as ((report & Hout & Hret) & _).
  exists report. split; [exact Hout|]. rewrite Hret. vm_compute. reflexivity.
Defined.

Lemma raw_handlers_block_until_body_is_read_witness :
  (usesRawResponse (HandleEndorse "Testlandia") = true /\
   call (answers endorsedResponse "") (sampleHandle (HandleEndorse "Testlandia")) idleWorld =
     (fst (call (answers endorsedResponse "") (sampleHandle (HandleEndorse "Testlandia"))
             idleWorld),
      Some (Fulfilled {| bubble := ShownSuccess "Endorsed Testlandia";
                         returned := true |}))) /\
  snd (call (answers endorsedResponse "") (sampleHandle (HandleEndorse "Maxtopia"))
         (fst (call (answers endorsedResponse "") (sampleHandle (HandleEndorse "Testlandia"))
                 idleWorld))) = Some (Rejected simultaneityError).
Proof.
  assert (Hrun : call (answers endorsedResponse "")
                   (sampleHandle (HandleEndorse "Testlandia")) idleWorld =
     (fst (call (answers endorsedResponse "") (sampleHandle (HandleEndorse "Testlandia"))
             idleWorld),
      Some (Fulfilled {| bubble := ShownSuccess "Endorsed Testlandia";
                         returned := true |}))).
  { vm_compute. reflexivity. }
  split; [split; [reflexivity | exact Hrun]|].
  unfold sampleHandle at 1.
  rewrite (proj1 (raw_handlers_block_until_body_is_read sampleParseHtml sampleCanonicalize
                    samplePrettify sampleTrim (HandleEndorse "Testlandia")
                    (HandleEndorse "Maxtopia") _
                    (answers endorsedResponse "") _ _ _ eq_refl Hrun)).
  reflexivity.
Defined.

Lemma methods_endpoints_witness :
  (buildRequest "cgi-bin/"
     (Some [("nation", PStr "testlandia"); ("appid", PStr "42")]) true idleWorld
   ∈ requests_of (added_events idleWorld
       (fst (call (answers response200 "")
               (sampleInvoke (joinWorldAssembly "testlandia" "42")) idleWorld)))) /\
  ("template-overall", "none")
  ∈ url_search (req_url (buildRequest "cgi-bin/"
       (Some [("nation", PStr "testlandia"); ("appid", PStr "42")]) true idleWorld)).
Proof.
  assert (Hsent : buildRequest "cgi-bin/"
     (Some [("nation", PStr "testlandia"); ("appid", PStr "42")]) true idleWorld
   ∈ requests_of (added_events idleWorld
       (fst (call (answers response200 "")
               (sampleInvoke (joinWorldAssembly "testlandia" "42")) idleWorld)))).
  { vm_compute. constructor. }
  split; [exact Hsent|].
  apply (methods_endpoints sampleParseHtml sampleCanonicalize samplePrettify sampleTrim
           (joinWorldAssembly "testlandia" "42") (answers response200 "") idleWorld _
           Hsent). reflexivity.
Defined.

Lemma move_request_body_witness :
  (buildRequest "page=change_region"
     (Some [("region_name", PStr "rwby"); ("move_region", PStr "1");
            ("password", PStr "hunter2")]) true idleWorld
   ∈ requests_of (added_events idleWorld
       (fst (call (answers response200 "")
               (sampleInvoke (moveToRegion "rwby" (Some "hunter2"))) idleWorld)))) /\
  req_body (buildRequest "page=change_region"
     (Some [("region_name", PStr "rwby"); ("move_region", PStr "1");
            ("password", PStr "hunter2")]) true idleWorld) =
  [("region_name", "rwby"); ("move_region", "1"); ("password", "hunter2"); ("chk", "c1")].
Proof.
  assert (Hsent : buildRequest "page=change_region"
     (Some [("region_name", PStr "rwby"); ("move_region", PStr "1");
            ("password", PStr "hunter2")]) true idleWorld
   ∈ requests_of (added_events idleWorld
       (fst (call (answers response200 "")
               (sampleInvoke (moveToRegion "rwby" (Some "hunter2"))) idleWorld)))).
  { vm_compute. constructor. }
  split; [exact Hsent|].
  rewrite (move_request_body sampleParseHtml sampleCanonicalize samplePrettify sampleTrim
             "rwby" (Some "hunter2") (answers response200 "") idleWorld _ Hsent).
  vm_compute. reflexivity.
Defined.

Lemma create_request_body_witness :
  (buildRequest "page=create_region"
     (Some [("region_name", PStr "new haven"); ("desc", PStr "hello");
            ("create_region", PStr "1"); ("is_frontier", PStr "0");
            ("delegate_control", PStr "0")]) true idleWorld
   ∈ requests_of (added_events idleWorld
       (fst (call (answers response200 "")
               (sampleInvoke (createRegion "New Haven" "hello" None None None))
               idleWorld)))) /\
  req_body (buildRequest "page=create_region"
     (Some [("region_name", PStr "new haven"); ("desc", PStr "hello");
            ("create_region", PStr "1"); ("is_frontier", PStr "0");
            ("delegate_control", PStr "0")]) true idleWorld) =
  [("region_name", "new haven"); ("desc", "hello"); ("create_region", "1");
   ("is_frontier", "0"); ("delegate_control", "0"); ("chk", "c1")].
Proof.
  assert (Hsent : buildRequest "page=create_region"
     (Some [("region_name", PStr "new haven"); ("desc", PStr "hello");
            ("create_region", PStr "1"); ("is_frontier", PStr "0");
            ("delegate_control", PStr "0")]) true idleWorld
   ∈ requests_of (added_events idleWorld
       (fst (call (answers response200 "")
               (sampleInvoke (createRegion "New Haven" "hello" None None None))
               idleWorld)))).
  { vm_compute. constructor. }
  split; [exact Hsent|].
  rewrite (create_request_body sampleParseHtml sampleCanonicalize samplePrettify sampleTrim
             "New Haven" "hello" None None None (answers response200 "") idleWorld _ Hsent).
  vm_compute. reflexivity.
Defined.

Lemma tag_reports_witness :
  call (answers response200 "") (sampleInvoke (removeTag "anarchist")) idleWorld =
    (fst (call (answers response200 "") (sampleInvoke (removeTag "anarchist")) idleWorld),
     Some (Fulfilled {| bubble := ShownWarn "Failed to remove tag: anarchist";
                        returned := false |})) /\
  requests_of (added_events idleWorld
    (fst (call (answers response200 "") (sampleInvoke (removeTag "anarchist")) idleWorld))) =
  [buildRequest "page=region_control"
     (Some [("remove_tag", PStr "anarchist"); ("updatetagsbutton", PStr "1")])
     true idleWorld].
Proof.
  assert (Hrun : call (answers response200 "") (sampleInvoke (removeTag "anarchist"))
                   idleWorld =
    (fst (call (answers response200 "") (sampleInvoke (removeTag "anarchist")) idleWorld),
     Some (Fulfilled {| bubble := ShownWarn "Failed to remove tag: anarchist";
                        returned := false |}))).
  { vm_compute. reflexivity. }
  split; [exact Hrun|].
  exact (proj1 (tag_reports sampleParseHtml sampleCanonicalize samplePrettify sampleTrim
                  (removeTag "anarchist") tag_remove "anarchist" _ _ _ _
                  (or_intror (conj eq_refl eq_refl)) Hrun)).
Defined.

Lemma reAuthenticate_refreshes_the_tokens_witness :
  call (answers response200 freshPage) (reAuthenticate sampleParseHtml) idleWorld =
    (fst (call (answers response200 freshPage) (reAuthenticate sampleParseHtml) idleWorld),
     Some (Fulfilled (ShownSuccess "Re-authenticated"))) /\
  isHtmlRequestInProgress
    (this (fst (call (answers response200 freshPage) (reAuthenticate sampleParseHtml)
                  idleWorld))) = false.
Proof.
  assert (Hrun : call (answers response200 freshPage) (reAuthenticate sampleParseHtml)
                   idleWorld =
    (fst (call (answers response200 freshPage) (reAuthenticate sampleParseHtml) idleWorld),
     Some (Fulfilled (ShownSuccess "Re-authenticated")))).
  { vm_compute. reflexivity. }
  split; [exact Hrun|].
  exact (proj1 (proj2 (proj2 (reAuthenticate_refreshes_the_tokens sampleParseHtml
                                _ _ _ _ Hrun)))).
Defined.

Lemma officer_authority_fields_witness :
  officerRequest ∈ requests_of (added_events idleWorld
    (fst (call (answers response200 "")
            (sampleHandle (HandleEditRO "testlandia" "Warden" "BEX" (Some "lazarus")))
            idleWorld))) /\
  ("authority_" +:+ "B", "on") ∈ req_body officerRequest /\
  (forall value, ("authority_" +:+ "B", value) ∈ req_body officerRequest -> value = "on") /\
  (forall value, ("authority_" +:+ "X", value) ∉ req_body officerRequest).
Proof.
  assert (Hsent : officerRequest ∈ requests_of (added_events idleWorld
    (fst (call (answers response200 "")
            (sampleHandle (HandleEditRO "testlandia" "Warden" "BEX" (Some "lazarus")))
            idleWorld)))).
  { vm_compute. constructor. }
  split; [exact Hsent|].
  pose proof (officer_authority_fields sampleParseHtml sampleCanonicalize samplePrettify
                sampleTrim (HandleEditRO "testlandia" "Warden" "BEX" (Some "lazarus"))
                "BEX" ["A"; "B"; "C"; "E"; "P"; "S"] [] (answers response200 "")
                idleWorld _
                (or_introl (ex_intro _ "testlandia" (ex_intro _ "Warden"
                   (ex_intro _ (Some "lazarus") (conj eq_refl (conj eq_refl eq_refl))))))
                Hsent) as Hfields.
  split; [|split].
  - apply Hfields. split; [reflexivity|]. right. split; [repeat constructor | reflexivity].
  - intros value Hin. apply Hfields in Hin as [Hvalue _]. exact Hvalue.
  - intros value Hin. apply Hfields in Hin as [_ [Hin | [Hin _]]].
    + inversion Hin.
    + repeat (apply (proj1 (elem_of_cons _ _ _)) in Hin as [Hin | Hin];
              [discriminate Hin|]).
      inversion Hin.
Defined.

Lemma officer_region_scope_witness :
  (scopeOf (HandleDismissRO "testlandia" (Some "archive.cgi")) = Some (Some "archive.cgi") /\
   buildRequest "page=region_control/region=archive.cgi"
     (Some [("nation", PStr "testlandia"); ("abolishofficer", PStr "1");
            ("region", PStr "archive.cgi")]) true idleWorld
   ∈ requests_of (added_events idleWorld
       (fst (call (answers response200 "")
               (sampleHandle (HandleDismissRO "testlandia" (Some "archive.cgi")))
               idleWorld)))) /\
  ("template-overall", "none")
  ∉ url_search (req_url (buildRequest "page=region_control/region=archive.cgi"
       (Some [("nation", PStr "testlandia"); ("abolishofficer", PStr "1");
              ("region", PStr "archive.cgi")]) true idleWorld)).
Proof.
  assert (Hsent : buildRequest "page=region_control/region=archive.cgi"
     (Some [("nation", PStr "testlandia"); ("abolishofficer", PStr "1");
            ("region", PStr "archive.cgi")]) true idleWorld
   ∈ requests_of (added_events idleWorld
       (fst (call (answers response200 "")
               (sampleHandle (HandleDismissRO "testlandia" (Some "archive.cgi")))
               idleWorld)))).
  { vm_compute. constructor. }
  split; [split; [reflexivity | exact Hsent]|].
  intros Hin.
  apply (officer_region_scope sampleParseHtml sampleCanonicalize samplePrettify sampleTrim
           (HandleDismissRO "testlandia" (Some "archive.cgi")) (Some "archive.cgi")
           (answers response200 "") idleWorld _ eq_refl Hsent) in Hin.
  vm_compute in Hin. discriminate Hin.
Defined.
